(** * UniFi Site Manager MCP bridge: a shallow embedding and its properties

    The development follows the two Python modules of the package:

    - [unifi_mcp/unifi_api.py]: class [UniFiSiteManagerClient] (module
      [UnifiApi] below);
    - [unifi_mcp/server.py]: the tools registered with FastMCP (module
      [Server] below).

    Python text is modelled by [string] (a sequence of bytes, read as
    ASCII/UTF-8), [os.environ] by a finite map from names to values, the
    process' observable I/O by a log of events threaded through a state
    and exception monad.  What lies outside the package is a parameter:
    the remote service together with httpx's transport (an arbitrary
    function from requests to outcomes), httpx's screening of the
    arguments of [AsyncClient], and the decoding of a response body. *)

From Stdlib Require Import ZArith NArith Ascii String List Bool Lia.
From stdpp Require Import base gmap strings list.

(** ** Python string primitives *)

Module PyStr.

(** [c in chars], the membership test behind [str.strip(chars)]. *)
Fixpoint mem (c : ascii) (chars : string) : bool :=
  match chars with
  | EmptyString => false
  | String d chars' => if Ascii.eqb c d then true else mem c chars'
  end.

(** Every character of [s] belongs to [chars]. *)
Fixpoint all_in (chars s : string) : bool :=
  match s with
  | EmptyString => true
  | String c s' => mem c chars && all_in chars s'
  end.

(** [s.lstrip(chars)] *)
Fixpoint lstrip (chars s : string) : string :=
  match s with
  | EmptyString => EmptyString
  | String c s' => if mem c chars then lstrip chars s' else s
  end.

(** [s.rstrip(chars)] *)
Fixpoint rstrip (chars s : string) : string :=
  match s with
  | EmptyString => EmptyString
  | String c s' =>
      match rstrip chars s' with
      | EmptyString => if mem c chars then EmptyString else String c EmptyString
      | r => String c r
      end
  end.

(** [s.strip(chars)] *)
Definition strip (chars s : string) : string := lstrip chars (rstrip chars s).

Definition first_char (s : string) : option ascii :=
  match s with
  | EmptyString => None
  | String c _ => Some c
  end.

Fixpoint last_char (s : string) : option ascii :=
  match s with
  | EmptyString => None
  | String c EmptyString => Some c
  | String _ s' => last_char s'
  end.

(** [s.startswith(c)] and [s.endswith(c)] for a one-character [c]. *)
Definition startswith (c : ascii) (s : string) : bool :=
  match first_char s with
  | Some d => Ascii.eqb c d
  | None => false
  end.

Definition endswith (c : ascii) (s : string) : bool :=
  match last_char s with
  | Some d => Ascii.eqb c d
  | None => false
  end.

End PyStr.

(** ** The built-in [float(str)]

    CPython's conversion on ASCII text: surrounding whitespace is dropped,
    underscores are accepted between two digits only, and what remains is
    [sign] followed by [inf], [infinity], [nan] (any letter case) or by a
    decimal number with an optional exponent.  The result keeps the exact
    decimal value of the literal; rounding to binary64 is not represented.
    Text with non-ASCII characters is refused here, although CPython
    accepts Unicode digits and spaces: a statement that relies on a
    refusal is made for ASCII text only. *)

Module PyFloat.

Inductive t : Type :=
| Nan
| Inf (negative : bool)
| Dec (negative : bool) (digits : N) (exp10 : Z).

Definition code (c : ascii) : nat := nat_of_ascii c.

(** [Py_ISSPACE]: tab, line feed, vertical tab, form feed, carriage
    return and space. *)
Definition is_space (c : ascii) : bool :=
  ((9 <=? code c) && (code c <=? 13)) || (code c =? 32).

Definition is_digit (c : ascii) : bool :=
  (48 <=? code c) && (code c <=? 57).

Definition is_underscore (c : ascii) : bool := code c =? 95.

Definition lower (c : ascii) : ascii :=
  if (65 <=? code c) && (code c <=? 90) then ascii_of_nat (code c + 32) else c.

Definition digit_value (c : ascii) : N := N.of_nat (code c - 48).

Fixpoint drop_spaces (l : list ascii) : list ascii :=
  match l with
  | c :: l' => if is_space c then drop_spaces l' else l
  | [] => []
  end.

Definition strip_spaces (l : list ascii) : list ascii :=
  rev (drop_spaces (rev (drop_spaces l))).

(** Underscore screening: an underscore must follow a digit and must be
    followed by a digit; the text without its underscores is returned. *)
Fixpoint drop_underscores (prev : option ascii) (l : list ascii)
  : option (list ascii) :=
  match l with
  | [] =>
      match prev with
      | Some p => if is_underscore p then None else Some []
      | None => Some []
      end
  | c :: l' =>
      if is_underscore c then
        match prev with
        | Some p => if is_digit p then drop_underscores (Some c) l' else None
        | None => None
        end
      else
        let after_underscore :=
          match prev with
          | Some p => is_underscore p
          | None => false
          end in
        if after_underscore && negb (is_digit c) then None
        else option_map (cons c) (drop_underscores (Some c) l')
  end.

(** The longest prefix of digits and what follows it. *)
Fixpoint span_digits (l : list ascii) : list ascii * list ascii :=
  match l with
  | c :: l' =>
      if is_digit c then
        let (ds, rest) := span_digits l' in (c :: ds, rest)
      else ([], l)
  | [] => ([], [])
  end.

Definition digits_value (ds : list ascii) : N :=
  fold_left (fun acc c => (10 * acc + digit_value c)%N) ds 0%N.

Definition take_sign (l : list ascii) : bool * list ascii :=
  match l with
  | c :: l' =>
      if code c =? 45 then (true, l')
      else if code c =? 43 then (false, l')
      else (false, l)
  | [] => (false, [])
  end.

Definition lowered (l : list ascii) : string :=
  string_of_list_ascii (map lower l).

(** [_Py_parse_inf_or_nan], after the sign. *)
Definition parse_inf_or_nan (negative : bool) (l : list ascii) : option t :=
  let w := lowered l in
  if String.eqb w "inf" || String.eqb w "infinity" then Some (Inf negative)
  else if String.eqb w "nan" then Some Nan
  else None.

(** The exponent part: empty, or [e]/[E], an optional sign and at least
    one digit, up to the end of the text. *)
Definition parse_exponent (l : list ascii) : option Z :=
  match l with
  | [] => Some 0%Z
  | c :: l' =>
      if code (lower c) =? 101 then
        let (neg, l'') := take_sign l' in
        match span_digits l'' with
        | (d :: ds, []) =>
            let e := Z.of_N (digits_value (d :: ds)) in
            Some (if neg then (- e)%Z else e)
        | _ => None
        end
      else None
  end.

(** A decimal number: digits, an optional point and digits, at least one
    digit in all, then the exponent. *)
Definition parse_decimal (negative : bool) (l : list ascii) : option t :=
  let (ip, rest) := span_digits l in
  let (fp, rest') :=
    match rest with
    | c :: r => if code c =? 46 then span_digits r else ([], rest)
    | [] => ([], [])
    end in
  match ip ++ fp with
  | [] => None
  | ds =>
      match parse_exponent rest' with
      | Some e =>
          Some (Dec negative (digits_value ds) (e - Z.of_nat (length fp)))
      | None => None
      end
  end.

(** [float(s)]: [None] stands for [ValueError]. *)
Definition of_string (s : string) : option t :=
  match drop_underscores None (strip_spaces (list_ascii_of_string s)) with
  | None => None
  | Some l =>
      let (negative, body) := take_sign l in
      match parse_decimal negative body with
      | Some f => Some f
      | None => parse_inf_or_nan negative body
      end
  end.

End PyFloat.

(** ** The built-in [int(str)]

    CPython's base-10 conversion on ASCII text: whitespace, an optional
    sign, digits with single underscores between them, whitespace.  The
    interpreter refuses literals of more than [max_str_digits] digits
    ([sys.get_int_max_str_digits()], 0 meaning no limit).  As for [float],
    non-ASCII text is refused here although CPython accepts Unicode digits
    and spaces. *)

Module PyInt.

(** The digits of the literal, underscores removed, and what follows it.
    [prev] is the character before, if any. *)
Fixpoint scan (prev : option ascii) (l : list ascii)
  : option (list ascii * list ascii) :=
  let finish (rest : list ascii) :=
    match prev with
    | Some p => if PyFloat.is_underscore p then None else Some ([], rest)
    | None => Some ([], rest)
    end in
  match l with
  | [] => finish []
  | c :: l' =>
      if PyFloat.is_underscore c then
        match prev with
        | Some p => if PyFloat.is_underscore p then None else scan (Some c) l'
        | None => None
        end
      else if PyFloat.is_digit c then
        match scan (Some c) l' with
        | Some (ds, rest) => Some (c :: ds, rest)
        | None => None
        end
      else finish l
  end.

(** [int(s)]: [None] stands for [ValueError]. *)
Definition of_string (max_str_digits : nat) (s : string) : option Z :=
  let (negative, l) :=
    PyFloat.take_sign (PyFloat.drop_spaces (list_ascii_of_string s)) in
  match scan None l with
  | Some (d :: ds, rest) =>
      if (0 <? max_str_digits) && (max_str_digits <? length (d :: ds)) then None
      else
        match PyFloat.drop_spaces rest with
        | [] =>
            let n := Z.of_N (PyFloat.digits_value (d :: ds)) in
            Some (if negative then (- n)%Z else n)
        | _ :: _ => None
        end
  | _ => None
  end.

End PyInt.

(** ** [os.getenv] *)

Module Os.

(** [os.getenv(name)]: [None] when the variable is unset. *)
Definition getenv (environ : gmap string string) (name : string)
  : option string :=
  environ !! name.

(** [os.getenv(name, fallback)]: a variable that is set, even to the
    empty text, wins over the fallback. *)
Definition getenv_or (environ : gmap string string) (name fallback : string)
  : string :=
  default fallback (environ !! name).

End Os.

(** ** The httpx interface used by the client *)

Module Httpx.

(** Decoded JSON, as [Response.json()] hands it back. *)
#[local] Unset Elimination Schemes.
Inductive Json : Type :=
| JNull
| JBool (b : bool)
| JInt (n : Z)
| JFloat (f : PyFloat.t)
| JStr (s : string)
| JList (items : list Json)
| JDict (members : list (string * Json)).
#[local] Set Elimination Schemes.

Record Response : Type := mkResponse {
  status_code : Z;
  content : string
}.

(** The subclasses of [httpx.TransportError]. *)
Inductive TransportKind : Type :=
| TimeoutException
| NetworkError
| ProtocolError
| ProxyError
| UnsupportedProtocol.

(** The exceptions that can cross the program.  [ValueError] keeps the
    rejected text, [HTTPStatusError] the response it was raised for. *)
Inductive Exn : Type :=
| RuntimeError (msg : string)
| ValueError (text : string)
| HTTPStatusError (response : Response)
| TransportError (kind : TransportKind)
| JSONDecodeError (doc : string)
| OtherError (name : string).

(** What [httpx.AsyncClient(base_url=..., headers=..., timeout=...)] was
    given, with the identity of the object built. *)
Record AsyncClient : Type := mkAsyncClient {
  ident : nat;
  base_url : string;
  headers : list (string * string);
  timeout : PyFloat.t
}.

Record Request : Type := mkRequest {
  path : string;
  params : list (string * string)
}.

(** Observable actions on the transport. *)
Inductive Event : Type :=
| Open (c : AsyncClient)
| Get (client : nat) (req : Request)
| Close (client : nat).

Record World : Type := mkWorld {
  next_ident : nat;
  log : list Event
}.

Inductive Outcome (A : Type) : Type :=
| Returns (a : A)
| Raises (e : Exn).
Arguments Returns {A} a.
Arguments Raises {A} e.

(** Computations that read and extend the world and may raise. *)
Definition Run (A : Type) : Type := World -> Outcome A * World.

Definition ret {A} (a : A) : Run A := fun w => (Returns a, w).

Definition raise {A} (e : Exn) : Run A := fun w => (Raises e, w).

Definition bind {A B} (m : Run A) (k : A -> Run B) : Run B :=
  fun w =>
    match m w with
    | (Returns a, w') => k a w'
    | (Raises e, w') => (Raises e, w')
    end.

(** [try: body finally: cleanup].  The cleanup always runs; when it
    raises, its exception replaces the outcome of the body. *)
Definition try_finally {A} (body : Run A) (cleanup : Run unit) : Run A :=
  fun w =>
    let (r, w') := body w in
    match cleanup w' with
    | (Returns _, w'') => (r, w'')
    | (Raises e, w'') => (Raises e, w'')
    end.

Definition emit (ev : Event) : Run unit :=
  fun w => (Returns tt, {| next_ident := next_ident w; log := log w ++ [ev] |}).

(** The far end of the connection together with httpx's transport: what
    a GET issued through a given client comes back with. *)
Definition Upstream : Type := AsyncClient -> Request -> Outcome Response.

(** httpx's own screening of what [AsyncClient(...)] is given: header
    values must be ASCII, the base URL must parse, and with [trust_env]
    the proxy and certificate settings of the process are read too.  The
    answer is the exception raised, or [None] when httpx builds the client.
    httpx is not part of the package, so its verdict is a parameter. *)
Definition Validation : Type :=
  string -> list (string * string) -> PyFloat.t -> option Exn.

(** [httpx.AsyncClient(base_url=..., headers=..., timeout=...)]: a fresh
    client object, unless httpx refuses the arguments. *)
Definition AsyncClient_new (validate : Validation) (base : string)
    (hdrs : list (string * string)) (tmo : PyFloat.t) : Run AsyncClient :=
  fun w =>
    match validate base hdrs tmo with
    | Some e => (Raises e, w)
    | None =>
        let c := {| ident := next_ident w; base_url := base;
                    headers := hdrs; timeout := tmo |} in
        (Returns c, {| next_ident := S (next_ident w); log := log w ++ [Open c] |})
    end.

(** [await client.get(path, params=...)] *)
Definition get (upstream : Upstream) (c : AsyncClient) (p : string)
    (q : list (string * string)) : Run Response :=
  fun w =>
    let req := {| path := p; params := q |} in
    (upstream c req,
     {| next_ident := next_ident w; log := log w ++ [Get (ident c) req] |}).

(** [await client.aclose()] *)
Definition aclose (c : AsyncClient) : Run unit := emit (Close (ident c)).

(** [Response.is_success] *)
Definition is_success (r : Response) : bool :=
  (200 <=? status_code r)%Z && (status_code r <=? 299)%Z.

(** [Response.raise_for_status()] *)
Definition raise_for_status (r : Response) : Run unit :=
  if is_success r then ret tt else raise (HTTPStatusError r).

(** [Response.json()], over the decoding of the body (UTF-8, then the
    [json] module): the value, or the exception the decoding raises. *)
Definition json (json_loads : string -> Outcome Json) (r : Response) : Run Json :=
  match json_loads (content r) with
  | Returns v => ret v
  | Raises e => raise e
  end.

(** Events of a log that concern one client. *)
Definition is_close_of (i : nat) (ev : Event) : bool :=
  match ev with
  | Close j => Nat.eqb i j
  | _ => false
  end.

Definition is_get (ev : Event) : bool :=
  match ev with
  | Get _ _ => true
  | _ => false
  end.

Definition is_open (ev : Event) : bool :=
  match ev with
  | Open _ => true
  | _ => false
  end.

(** How many events of a log satisfy [p]. *)
Fixpoint count (p : Event -> bool) (l : list Event) : nat :=
  match l with
  | [] => 0
  | ev :: l' => (if p ev then 1 else 0) + count p l'
  end.

End Httpx.

Declare Scope run_scope.
Delimit Scope run_scope with run.
Notation "x <- m ;; k" := (Httpx.bind m (fun x => k))
  (at level 100, m at next level, right associativity) : run_scope.
Notation "m ;;; k" := (Httpx.bind m (fun _ => k))
  (at level 100, right associativity) : run_scope.

Local Open Scope run_scope.

(** ** [unifi_mcp/unifi_api.py] *)

Module UnifiApi.

Import Httpx.

Record UniFiSiteManagerClient : Type := mkClient {
  base_url : string;
  version : string;
  timeout_s : PyFloat.t;
  _client : AsyncClient
}.

(** [float(text)] as a computation. *)
Definition float (text : string) : Run PyFloat.t :=
  match PyFloat.of_string text with
  | Some f => ret f
  | None => raise (ValueError text)
  end.

(** [UniFiSiteManagerClient.__init__].  [not api_key] holds for [None]
    and for the empty text. *)
Definition __init__ (validate : Validation) (environ : gmap string string)
  : Run UniFiSiteManagerClient :=
  match Os.getenv environ "UNIFI_API_KEY" with
  | None | Some EmptyString =>
      raise (RuntimeError "UNIFI_API_KEY is required")
  | Some api_key =>
      let base_url :=
        PyStr.rstrip "/" (Os.getenv_or environ "UNIFI_BASE_URL" "https://api.ui.com") in
      let version :=
        PyStr.strip "/" (Os.getenv_or environ "UNIFI_API_VERSION" "v1") in
      timeout_s <- float (Os.getenv_or environ "UNIFI_TIMEOUT" "30") ;;
      cl <- AsyncClient_new validate
              (base_url +:+ "/" +:+ version)
              [("X-API-KEY", api_key); ("Accept", "application/json")]
              timeout_s ;;
      ret {| base_url := base_url; version := version;
             timeout_s := timeout_s; _client := cl |}
  end.

Section Operations.

Variable upstream : Upstream.
Variable json_loads : string -> Outcome Json.

(** [UniFiSiteManagerClient.close] *)
Definition close (self : UniFiSiteManagerClient) : Run unit :=
  aclose (_client self).

Definition list_hosts (self : UniFiSiteManagerClient) : Run Json :=
  r <- get upstream (_client self) "/hosts" [] ;;
  (raise_for_status r ;;;
   json json_loads r).

Definition list_sites (self : UniFiSiteManagerClient) : Run Json :=
  r <- get upstream (_client self) "/sites" [] ;;
  (raise_for_status r ;;;
   json json_loads r).

Definition list_devices (self : UniFiSiteManagerClient) (site_id : string)
  : Run Json :=
  r <- get upstream (_client self) "/devices" [("siteId", site_id)] ;;
  (raise_for_status r ;;;
   json json_loads r).

Definition get_isp_metrics (self : UniFiSiteManagerClient) (site_id : string)
  : Run Json :=
  r <- get upstream (_client self) "/isp-metrics" [("siteId", site_id)] ;;
  (raise_for_status r ;;;
   json json_loads r).

End Operations.

End UnifiApi.

(** ** [unifi_mcp/server.py] *)

Module Server.

Import Httpx.

Section Tools.

Variable validate : Validation.
Variable environ : gmap string string.
Variable upstream : Upstream.
Variable json_loads : string -> Outcome Json.

Definition health : Run (gmap string string) :=
  ret (<["status" := "ok"]>
       (<["transport" := "streamable-http"]>
        (<["base_url" := Os.getenv_or environ "UNIFI_BASE_URL" "https://api.ui.com"]>
         (<["api_version" := Os.getenv_or environ "UNIFI_API_VERSION" "v1"]> ∅)))).

Definition list_hosts : Run Json :=
  c <- UnifiApi.__init__ validate environ ;;
  try_finally (UnifiApi.list_hosts upstream json_loads c) (UnifiApi.close c).

Definition list_sites : Run Json :=
  c <- UnifiApi.__init__ validate environ ;;
  try_finally (UnifiApi.list_sites upstream json_loads c) (UnifiApi.close c).

Definition list_devices (site_id : string) : Run Json :=
  c <- UnifiApi.__init__ validate environ ;;
  try_finally (UnifiApi.list_devices upstream json_loads c site_id)
              (UnifiApi.close c).

Definition get_isp_metrics (site_id : string) : Run Json :=
  c <- UnifiApi.__init__ validate environ ;;
  try_finally (UnifiApi.get_isp_metrics upstream json_loads c site_id)
              (UnifiApi.close c).

End Tools.

(** The keyword arguments of a call to [mcp.run]. *)
Record RunCall : Type := mkRunCall {
  transport : string;
  host : string;
  port : Z;
  path : string
}.

(** [main]: the call to [mcp.run] it ends with, or the exception raised
    before it.  [max_str_digits] is the interpreter's limit on integer
    literals. *)
Definition main (max_str_digits : nat) (environ : gmap string string)
  : Outcome RunCall :=
  match PyInt.of_string max_str_digits (Os.getenv_or environ "MCP_PORT" "3000") with
  | None => Raises (ValueError (Os.getenv_or environ "MCP_PORT" "3000"))
  | Some port =>
      Returns {| transport := "streamable-http";
                 host := "0.0.0.0";
                 port := port;
                 path := Os.getenv_or environ "MCP_PATH" "/mcp" |}
  end.

End Server.

(** ** Vocabulary of the statements *)

Import Httpx.

(** The four client operations, and the tools that wrap them. *)
Inductive Operation : Type :=
| ListHosts
| ListSites
| ListDevices (site_id : string)
| GetIspMetrics (site_id : string).

Definition client_call (upstream : Upstream) (json_loads : string -> Outcome Json)
    (self : UnifiApi.UniFiSiteManagerClient) (op : Operation) : Run Json :=
  match op with
  | ListHosts => UnifiApi.list_hosts upstream json_loads self
  | ListSites => UnifiApi.list_sites upstream json_loads self
  | ListDevices site_id => UnifiApi.list_devices upstream json_loads self site_id
  | GetIspMetrics site_id => UnifiApi.get_isp_metrics upstream json_loads self site_id
  end.

Definition tool_call (validate : Validation) (environ : gmap string string)
    (upstream : Upstream) (json_loads : string -> Outcome Json) (op : Operation)
  : Run Json :=
  match op with
  | ListHosts => Server.list_hosts validate environ upstream json_loads
  | ListSites => Server.list_sites validate environ upstream json_loads
  | ListDevices site_id =>
      Server.list_devices validate environ upstream json_loads site_id
  | GetIspMetrics site_id =>
      Server.get_isp_metrics validate environ upstream json_loads site_id
  end.

(** The specification's table of operations: resource path and query
    parameters of each. *)
Definition spec_request (op : Operation) : Request :=
  match op with
  | ListHosts => {| path := "/hosts"; params := [] |}
  | ListSites => {| path := "/sites"; params := [] |}
  | ListDevices site_id => {| path := "/devices"; params := [("siteId", site_id)] |}
  | GetIspMetrics site_id =>
      {| path := "/isp-metrics"; params := [("siteId", site_id)] |}
  end.

(** The specification's error taxonomy, read on the exceptions the code
    raises: its [ConfigurationError] is the [RuntimeError] of [__init__],
    its [UpstreamError] is httpx's [HTTPStatusError], its [TransportError]
    is httpx's exception of that name. *)
Definition ConfigurationError : Exn := RuntimeError "UNIFI_API_KEY is required".

Definition UpstreamError (status : Z) (body : string) : Exn :=
  HTTPStatusError {| status_code := status; content := body |}.

(** The API key variable is set to a non-empty text. *)
Definition has_api_key (environ : gmap string string) : Prop :=
  exists k, environ !! "UNIFI_API_KEY" = Some k /\ k <> EmptyString.

(** All bytes of a text are ASCII. *)
Definition is_ascii (s : string) : bool :=
  forallb (fun c => nat_of_ascii c <? 128) (list_ascii_of_string s).

(** The configured timeout text, with its fallback. *)
Definition timeout_text (environ : gmap string string) : string :=
  Os.getenv_or environ "UNIFI_TIMEOUT" "30".

(** What an operation makes of the transport's answer. *)
Definition settle (json_loads : string -> Outcome Json) (o : Outcome Response)
  : Outcome Json :=
  match o with
  | Raises e => Raises e
  | Returns r =>
      if is_success r then
        json_loads (content r)
      else Raises (HTTPStatusError r)
  end.

(** The world after some more events. *)
Definition extend (w : World) (evs : list Event) : World :=
  {| next_ident := next_ident w; log := log w ++ evs |}.

(** The client an event belongs to. *)
Definition event_ident (ev : Event) : nat :=
  match ev with
  | Open c => ident c
  | Get i _ => i
  | Close i => i
  end.

(** The client and the world that a successful construction yields. *)
Definition built_client (environ : gmap string string) (k : string)
    (f : PyFloat.t) (w : World) : UnifiApi.UniFiSiteManagerClient :=
  let b := PyStr.rstrip "/" (Os.getenv_or environ "UNIFI_BASE_URL" "https://api.ui.com") in
  let v := PyStr.strip "/" (Os.getenv_or environ "UNIFI_API_VERSION" "v1") in
  {| UnifiApi.base_url := b;
     UnifiApi.version := v;
     UnifiApi.timeout_s := f;
     UnifiApi._client :=
       {| ident := next_ident w;
          base_url := b +:+ "/" +:+ v;
          headers := [("X-API-KEY", k); ("Accept", "application/json")];
          timeout := f |} |}.

Definition opened (w : World) (c : AsyncClient) : World :=
  {| next_ident := S (next_ident w); log := log w ++ [Open c] |}.

(** Every client met in the log was created before [next_ident]. *)
Definition World_ok (w : World) : Prop :=
  Forall (fun ev => event_ident ev < next_ident w) (log w).

Definition world0 : World := {| next_ident := 0; log := [] |}.

(** ** Sample environments and fake upstreams *)

(** A stand-in for httpx's screening: it refuses header values that are
    not ASCII. *)
Definition httpx_checks : Validation :=
  fun _ hdrs _ =>
    if forallb (fun h => is_ascii (snd h)) hdrs then None
    else Some (OtherError "UnicodeEncodeError").

(** The key [sÃ©cret]: an accented letter in UTF-8. *)
Definition accented_key : string :=
  "s" +:+ String (ascii_of_nat 195) (String (ascii_of_nat 169) "cret").

Definition env_accented_key : gmap string string :=
  <["UNIFI_API_KEY" := accented_key]> ∅.

Definition quote : string := String (ascii_of_nat 34) EmptyString.

Definition env_key_only : gmap string string :=
  <["UNIFI_API_KEY" := "secret"]> ∅.

Definition env_slashes : gmap string string :=
  <["UNIFI_API_KEY" := "secret"]>
  (<["UNIFI_BASE_URL" := "https://api.ui.com/"]>
   (<["UNIFI_API_VERSION" := "/v1/"]> ∅)).

Definition env_bad_timeout : gmap string string :=
  <["UNIFI_API_KEY" := "secret"]> (<["UNIFI_TIMEOUT" := "abc"]> ∅).

Definition env_no_key : gmap string string :=
  <["UNIFI_BASE_URL" := "https://unifi.example"]> ∅.

(** The client that [env_key_only] yields in the initial world. *)
Definition client0 : UnifiApi.UniFiSiteManagerClient :=
  built_client env_key_only "secret" (PyFloat.Dec false 30 0) world0.

(** The body [{"hosts":[]}] and its decoding. *)
Definition hosts_body : string := "{" +:+ quote +:+ "hosts" +:+ quote +:+ ":[]}".

Definition hosts_json : Json := JDict [("hosts", JList [])].

Definition fake_json_loads (doc : string) : Outcome Json :=
  if String.eqb doc hosts_body then Returns hosts_json
  else if is_ascii doc then Raises (JSONDecodeError doc)
  else Raises (OtherError "UnicodeDecodeError").

Definition request_eqb (a b : Request) : bool :=
  String.eqb (path a) (path b)
  && bool_decide (params a = params b).

(** HTTP 200 with [{"hosts":[]}] for everything. *)
Definition upstream_hosts : Upstream :=
  fun _ _ => Returns {| status_code := 200; content := hosts_body |}.

(** HTTP 404 for [/devices?siteId=abc], HTTP 200 elsewhere. *)
Definition upstream_404 : Upstream :=
  fun _ req =>
    if request_eqb req {| path := "/devices"; params := [("siteId", "abc")] |}
    then Returns {| status_code := 404; content := "not found" |}
    else Returns {| status_code := 200; content := hosts_body |}.

(** An upstream that never answers within the client's timeout. *)
Definition upstream_stalled : Upstream :=
  fun _ _ => Raises (TransportError TimeoutException).

(** ** Sequences of invocations *)

(** The world after the invocations [ops], one after the other. *)
Fixpoint invoke_all (validate : Validation) (environ : gmap string string)
    (upstream : Upstream) (json_loads : string -> Outcome Json)
    (ops : list Operation) (w : World) : World :=
  match ops with
  | [] => w
  | op :: ops' =>
      invoke_all validate environ upstream json_loads ops'
        (snd (tool_call validate environ upstream json_loads op w))
  end.

(** The events of one complete use of a client. *)
Definition session (cr : AsyncClient * Request) : list Event :=
  [Open (fst cr); Get (ident (fst cr)) (snd cr); Close (ident (fst cr))].

(** The world after one complete use of a new client. *)
Definition after_session (w : World) (cr : AsyncClient * Request) : World :=
  {| next_ident := S (next_ident w); log := log w ++ session cr |}.

(** Where a session comes from: an invoked operation and a client that
    the constructor returned. *)
Definition session_origin (validate : Validation) (environ : gmap string string)
    (ops : list Operation) (cr : AsyncClient * Request) : Prop :=
  (exists op, In op ops /\ snd cr = spec_request op)
  /\ exists c w0 w1,
       UnifiApi.__init__ validate environ w0 = (Returns c, w1)
       /\ fst cr = UnifiApi._client c.

(** The connection context built for key [k] and timeout [f] when [i]
    clients were built before. *)
Definition context_of (environ : gmap string string) (k : string)
    (f : PyFloat.t) (i : nat) : AsyncClient :=
  UnifiApi._client (built_client environ k f {| next_ident := i; log := [] |}).

(** All characters of a text are whitespace for [float]. *)
Definition all_spaces (s : string) : bool :=
  forallb PyFloat.is_space (list_ascii_of_string s).

Definition env_blank_timeout : gmap string string :=
  <["UNIFI_API_KEY" := "secret"]> (<["UNIFI_TIMEOUT" := "  "]> ∅).

Definition env_only_slashes : gmap string string :=
  <["UNIFI_API_KEY" := "secret"]>
  (<["UNIFI_BASE_URL" := "//"]> (<["UNIFI_API_VERSION" := "/"]> ∅)).

(** HTTP 200 with a body that is not UTF-8: the single byte 0xFF. *)
Definition upstream_not_utf8 : Upstream :=
  fun _ _ => Returns {| status_code := 200;
                        content := String (ascii_of_nat 255) EmptyString |}.

(** A GET interrupted by an exception that is not httpx's. *)
Definition upstream_cancelled : Upstream :=
  fun _ _ => Raises (OtherError "CancelledError").

(** * Properties *)

(** ** [float] on sample texts *)

Example float_30 : PyFloat.of_string "30" = Some (PyFloat.Dec false 30 0).
Proof. reflexivity. Qed.

Example float_padded : PyFloat.of_string " -1_0.25e+3 " = Some (PyFloat.Dec true 1025 1).
Proof. reflexivity. Qed.

Example float_inf : PyFloat.of_string "-Infinity" = Some (PyFloat.Inf true).
Proof. reflexivity. Qed.

Example float_junk : PyFloat.of_string "abc" = None.
Proof. reflexivity. Qed.

Example float_bad_underscore : PyFloat.of_string "1__0" = None.
Proof. reflexivity. Qed.

Example float_bare_exponent : PyFloat.of_string "1e" = None.
Proof. reflexivity. Qed.

Example float_empty : PyFloat.of_string "" = None.
Proof. reflexivity. Qed.


(** ** Stripping *)

Lemma append_empty (t : string) : EmptyString +:+ t = t.
Proof. reflexivity. Qed.

Lemma append_cons (c : ascii) (s t : string) :
  String c s +:+ t = String c (s +:+ t).
Proof. reflexivity. Qed.

Section Stripping.

Import PyStr.

Variable chars : string.

Lemma last_char_rstrip s d :
  last_char (rstrip chars s) = Some d -> mem d chars = false.
Proof.
  induction s as [|c s IH]; simpl; [discriminate|].
  destruct (rstrip chars s) as [|c' r] eqn:E.
  - destruct (mem c chars) eqn:M; simpl; [discriminate|].
    intros [= <-]. exact M.
  - exact IH.
Qed.

Lemma rstrip_split s :
  exists t, s = rstrip chars s +:+ t /\ all_in chars t = true.
Proof.
  induction s as [|c s [t [Hs Ht]]]; simpl.
  - exists EmptyString. split; reflexivity.
  - destruct (rstrip chars s) as [|c' r] eqn:E.
    + rewrite append_empty in Hs. subst t. destruct (mem c chars) eqn:M.
      * exists (String c s). simpl. rewrite M, Ht. split; reflexivity.
      * exists s. split; [reflexivity | exact Ht].
    + exists t. split; [|exact Ht]. rewrite append_cons. f_equal. exact Hs.
Qed.

Lemma first_char_lstrip s d :
  first_char (lstrip chars s) = Some d -> mem d chars = false.
Proof.
  induction s as [|c s IH]; simpl; [discriminate|].
  destruct (mem c chars) eqn:M; [exact IH|].
  simpl. intros [= <-]. exact M.
Qed.

Lemma lstrip_split s :
  exists p, s = p +:+ lstrip chars s /\ all_in chars p = true.
Proof.
  induction s as [|c s [p [Hs Hp]]]; simpl.
  - exists EmptyString. split; reflexivity.
  - destruct (mem c chars) eqn:M.
    + exists (String c p). simpl. rewrite M, append_cons.
      split; [f_equal; exact Hs | exact Hp].
    + exists EmptyString. split; reflexivity.
Qed.

Lemma last_char_lstrip s d :
  last_char (lstrip chars s) = Some d -> last_char s = Some d.
Proof.
  induction s as [|c s IH]; simpl; [discriminate|].
  destruct (mem c chars).
  - intros H. specialize (IH H). destruct s; [discriminate | exact IH].
  - auto.
Qed.

Lemma first_char_strip s d :
  first_char (strip chars s) = Some d -> mem d chars = false.
Proof. apply first_char_lstrip. Qed.

Lemma last_char_strip s d :
  last_char (strip chars s) = Some d -> mem d chars = false.
Proof.
  intros H. apply last_char_lstrip in H. eapply last_char_rstrip, H.
Qed.

Lemma append_assoc (p q t : string) : (p +:+ q) +:+ t = p +:+ q +:+ t.
Proof.
  induction p as [|c p IH]; [reflexivity|].
  rewrite !append_cons. f_equal. exact IH.
Qed.

Lemma strip_split s :
  exists p t,
    s = p +:+ strip chars s +:+ t
    /\ all_in chars p = true /\ all_in chars t = true.
Proof.
  destruct (rstrip_split s) as [t [Hs Ht]].
  destruct (lstrip_split (rstrip chars s)) as [p [Hr Hp]].
  exists p, t. unfold strip. split; [|split; assumption].
  rewrite <- append_assoc, <- Hr. exact Hs.
Qed.

End Stripping.

Lemma endswith_false_of_last (c : ascii) (chars s : string) :
  PyStr.mem c chars = true ->
  (forall d, PyStr.last_char s = Some d -> PyStr.mem d chars = false) ->
  PyStr.endswith c s = false.
Proof.
  intros Hc H. unfold PyStr.endswith.
  destruct (PyStr.last_char s) as [d|] eqn:E; [|reflexivity].
  destruct (Ascii.eqb c d) eqn:Q; [|reflexivity].
  apply Ascii.eqb_eq in Q. subst d. rewrite (H c eq_refl) in Hc. discriminate.
Qed.

Lemma startswith_false_of_first (c : ascii) (chars s : string) :
  PyStr.mem c chars = true ->
  (forall d, PyStr.first_char s = Some d -> PyStr.mem d chars = false) ->
  PyStr.startswith c s = false.
Proof.
  intros Hc H. unfold PyStr.startswith.
  destruct (PyStr.first_char s) as [d|] eqn:E; [|reflexivity].
  destruct (Ascii.eqb c d) eqn:Q; [|reflexivity].
  apply Ascii.eqb_eq in Q. subst d. rewrite (H c eq_refl) in Hc. discriminate.
Qed.

(** ** Running the constructor *)

Lemma init_without_key (validate : Validation)
    (environ : gmap string string) (w : World) :
  environ !! "UNIFI_API_KEY" = None \/ environ !! "UNIFI_API_KEY" = Some EmptyString ->
  UnifiApi.__init__ validate environ w = (Raises ConfigurationError, w).
Proof.
  intros [H|H]; unfold UnifiApi.__init__, Os.getenv; rewrite H; reflexivity.
Qed.

Lemma init_with_key (validate : Validation)
    (environ : gmap string string) (w : World) (k : string) :
  environ !! "UNIFI_API_KEY" = Some k -> k <> EmptyString ->
  UnifiApi.__init__ validate environ w =
    match PyFloat.of_string (timeout_text environ) with
    | None => (Raises (ValueError (timeout_text environ)), w)
    | Some f =>
        let ctx := UnifiApi._client (built_client environ k f w) in
        match validate (base_url ctx) (headers ctx) (timeout ctx) with
        | Some e => (Raises e, w)
        | None => (Returns (built_client environ k f w), opened w ctx)
        end
    end.
Proof.
  intros H Hk. unfold UnifiApi.__init__, Os.getenv. rewrite H.
  destruct k as [|a k]; [congruence|].
  unfold bind, UnifiApi.float, timeout_text.
  destruct (PyFloat.of_string (Os.getenv_or environ "UNIFI_TIMEOUT" "30"));
    [|reflexivity].
  unfold AsyncClient_new, ret, built_client. simpl.
  match goal with
  | |- context [validate ?b ?h ?t] => destruct (validate b h t)
  end; reflexivity.
Qed.

Lemma init_returns (validate : Validation)
    (environ : gmap string string) (w w' : World)
    (c : UnifiApi.UniFiSiteManagerClient) :
  UnifiApi.__init__ validate environ w = (Returns c, w') ->
  exists k f,
    environ !! "UNIFI_API_KEY" = Some k /\ k <> EmptyString
    /\ PyFloat.of_string (timeout_text environ) = Some f
    /\ c = built_client environ k f w
    /\ w' = opened w (UnifiApi._client c).
Proof.
  intros H.
  destruct (environ !! "UNIFI_API_KEY") as [k|] eqn:K.
  - destruct (String.eqb_spec k EmptyString) as [->|Hk].
    + rewrite init_without_key in H by (right; exact K). discriminate.
    + rewrite (init_with_key _ _ _ _ K Hk) in H.
      destruct (PyFloat.of_string (timeout_text environ)) as [f|]; [|discriminate].
      cbv zeta in H.
      match type of H with
      | context [validate ?b ?h ?t] => destruct (validate b h t)
      end; [discriminate|].
      injection H as <- <-. exists k, f. repeat split; auto.
  - rewrite init_without_key in H by (left; exact K). discriminate.
Qed.

Lemma init_raises_unchanged (validate : Validation)
    (environ : gmap string string) (w w1 : World) (e : Exn) :
  UnifiApi.__init__ validate environ w = (Raises e, w1) -> w1 = w.
Proof.
  intros E.
  destruct (environ !! "UNIFI_API_KEY") as [k|] eqn:K.
  - destruct (String.eqb_spec k EmptyString) as [->|Hk].
    + rewrite init_without_key in E by (right; exact K). congruence.
    + rewrite (init_with_key _ _ _ _ K Hk) in E.
      destruct (PyFloat.of_string (timeout_text environ)); [|congruence].
      cbv zeta in E. destruct (validate _ _ _); congruence.
  - rewrite init_without_key in E by (left; exact K). congruence.
Qed.

Lemma init_accepted (validate : Validation) (environ : gmap string string)
    (w w' : World) (c : UnifiApi.UniFiSiteManagerClient) :
  UnifiApi.__init__ validate environ w = (Returns c, w') ->
  validate (base_url (UnifiApi._client c)) (headers (UnifiApi._client c))
           (timeout (UnifiApi._client c)) = None.
Proof.
  intros H.
  destruct (init_returns _ _ _ _ _ H) as (k & f & K & Hk & F & Hc & _).
  rewrite (init_with_key _ _ _ _ K Hk), F in H. cbv zeta in H. subst c.
  destruct (validate _ _ _); [discriminate | reflexivity].
Qed.

Lemma init_accepts (validate : Validation) (environ : gmap string string)
    (w : World) (k : string) (f : PyFloat.t) :
  environ !! "UNIFI_API_KEY" = Some k -> k <> EmptyString ->
  PyFloat.of_string (timeout_text environ) = Some f ->
  validate (base_url (UnifiApi._client (built_client environ k f w)))
           (headers (UnifiApi._client (built_client environ k f w))) f = None ->
  UnifiApi.__init__ validate environ w
  = (Returns (built_client environ k f w),
     opened w (UnifiApi._client (built_client environ k f w))).
Proof.
  intros K Hk F V. rewrite (init_with_key _ _ _ _ K Hk), F. cbv zeta.
  change (timeout (UnifiApi._client (built_client environ k f w))) with f.
  rewrite V. reflexivity.
Qed.

(** ** Running an operation and a tool *)

Lemma client_call_run (upstream : Upstream) (json_loads : string -> Outcome Json)
    (self : UnifiApi.UniFiSiteManagerClient) (op : Operation) (w : World) :
  client_call upstream json_loads self op w =
    (settle json_loads (upstream (UnifiApi._client self) (spec_request op)),
     extend w [Get (ident (UnifiApi._client self)) (spec_request op)]).
Proof.
  destruct op; simpl;
    unfold UnifiApi.list_hosts, UnifiApi.list_sites, UnifiApi.list_devices,
      UnifiApi.get_isp_metrics, bind, get, extend, settle, raise_for_status, json;
    match goal with
    | |- context [upstream ?c ?r] => destruct (upstream c r) as [r0|e]
    end; try reflexivity;
    destruct (is_success r0); simpl; try reflexivity;
    destruct (json_loads (content r0)); reflexivity.
Qed.

Lemma tool_call_run (validate : Validation)
    (environ : gmap string string) (upstream : Upstream)
    (json_loads : string -> Outcome Json) (op : Operation) (w : World) :
  tool_call validate environ upstream json_loads op w =
    match UnifiApi.__init__ validate environ w with
    | (Raises e, w1) => (Raises e, w1)
    | (Returns c, w1) =>
        (fst (client_call upstream json_loads c op w1),
         extend (snd (client_call upstream json_loads c op w1))
                [Close (ident (UnifiApi._client c))])
    end.
Proof.
  destruct op; simpl;
    unfold Server.list_hosts, Server.list_sites, Server.list_devices,
      Server.get_isp_metrics, bind;
    destruct (UnifiApi.__init__ validate environ w) as [[c|e] w1]; try reflexivity;
    unfold try_finally, UnifiApi.close, aclose, emit, extend;
    match goal with
    | |- context [let (_, _) := ?m in _] => destruct m as [r w2]
    end; reflexivity.
Qed.

Lemma extend_extend (w : World) (l1 l2 : list Event) :
  extend (extend w l1) l2 = extend w (l1 ++ l2).
Proof. unfold extend. simpl. rewrite <- app_assoc. reflexivity. Qed.

Lemma tool_call_outcome (validate : Validation)
    (environ : gmap string string) (upstream : Upstream)
    (json_loads : string -> Outcome Json) (op : Operation) (w w1 : World)
    (c : UnifiApi.UniFiSiteManagerClient) :
  UnifiApi.__init__ validate environ w = (Returns c, w1) ->
  tool_call validate environ upstream json_loads op w =
    (settle json_loads (upstream (UnifiApi._client c) (spec_request op)),
     extend w1 [Get (ident (UnifiApi._client c)) (spec_request op);
                Close (ident (UnifiApi._client c))]).
Proof.
  intros H. rewrite tool_call_run, H, client_call_run. simpl.
  rewrite extend_extend. reflexivity.
Qed.

Lemma tool_call_not_built (validate : Validation)
    (environ : gmap string string) (upstream : Upstream)
    (json_loads : string -> Outcome Json) (op : Operation) (w w1 : World) (e : Exn) :
  UnifiApi.__init__ validate environ w = (Raises e, w1) ->
  tool_call validate environ upstream json_loads op w = (Raises e, w1).
Proof. intros H. rewrite tool_call_run, H. reflexivity. Qed.

(** ** Counting events *)

Lemma count_app (p : Event -> bool) (l1 l2 : list Event) :
  count p (l1 ++ l2) = count p l1 + count p l2.
Proof.
  induction l1 as [|ev l1 IH]; simpl; [reflexivity|]. rewrite IH. lia.
Qed.

Lemma count_close_fresh (w : World) (i : nat) :
  World_ok w -> next_ident w <= i -> count (is_close_of i) (log w) = 0.
Proof.
  unfold World_ok. intros Hok Hi.
  induction Hok as [|ev l Hev _ IH]; simpl; [reflexivity|].
  rewrite IH. destruct ev as [c|j r|j]; simpl in *; try reflexivity.
  destruct (Nat.eqb_spec i j); [lia | reflexivity].
Qed.

(** ** The log stays well formed *)

Lemma World_ok_world0 : World_ok world0.
Proof. constructor. Qed.

Lemma World_ok_extend (w : World) (evs : list Event) :
  World_ok w ->
  Forall (fun ev => event_ident ev < next_ident w) evs ->
  World_ok (extend w evs).
Proof.
  unfold World_ok, extend. simpl. intros H1 H2. apply Forall_app. split; assumption.
Qed.

Lemma World_ok_opened (w : World) (c : AsyncClient) :
  World_ok w -> ident c = next_ident w -> World_ok (opened w c).
Proof.
  unfold World_ok, opened. simpl. intros H Hc. apply Forall_app. split.
  - eapply Forall_impl; [exact H|]. simpl. intros ev Hev. lia.
  - constructor; [simpl; lia | constructor].
Qed.

Lemma World_ok_tool_call (validate : Validation)
    (environ : gmap string string) (upstream : Upstream)
    (json_loads : string -> Outcome Json) (op : Operation) (w : World) :
  World_ok w -> World_ok (snd (tool_call validate environ upstream json_loads op w)).
Proof.
  intros Hok.
  destruct (UnifiApi.__init__ validate environ w) as [[c|e] w1] eqn:E.
  - rewrite (tool_call_outcome _ _ _ _ _ _ _ _ E). simpl.
    destruct (init_returns _ _ _ _ _ E) as (k & f & _ & _ & _ & Hc & ->).
    apply World_ok_extend.
    + apply World_ok_opened; [exact Hok | rewrite Hc; reflexivity].
    + rewrite Hc. simpl. repeat constructor; simpl; lia.
  - rewrite (tool_call_not_built _ _ _ _ _ _ _ _ E). simpl.
    rewrite (init_raises_unchanged _ _ _ _ _ E). exact Hok.
Qed.

(** ** Client lifecycle *)

(** C1.  For each of the tools [list_hosts], [list_sites], [list_devices]
    and [get_isp_metrics]: once the client has been constructed, the
    invocation ends with exactly one [Close] of that client, recorded after
    the operation's request and as the last event, whatever the operation
    did (returned, raised [HTTPStatusError], or raised anything else); the
    outcome handed to the caller is the operation's.  In a well-formed
    world the whole log holds exactly one [Close] of that client. *)
Theorem client_closed_exactly_once (validate : Validation)
    (environ : gmap string string) (upstream : Upstream)
    (json_loads : string -> Outcome Json) (op : Operation) (w w1 : World)
    (c : UnifiApi.UniFiSiteManagerClient) :
  UnifiApi.__init__ validate environ w = (Returns c, w1) ->
  exists evs w',
    tool_call validate environ upstream json_loads op w =
      (fst (client_call upstream json_loads c op w1), w')
    /\ log w' = log w ++ evs
    /\ count (is_close_of (ident (UnifiApi._client c))) evs = 1
    /\ last evs = Some (Close (ident (UnifiApi._client c)))
    /\ (World_ok w ->
        count (is_close_of (ident (UnifiApi._client c))) (log w') = 1).
Proof.
  intros H.
  pose proof (tool_call_outcome validate environ upstream json_loads op w w1 c H) as T.
  destruct (init_returns _ _ _ _ _ H) as (k & f & _ & _ & _ & Hc & Hw).
  set (i := ident (UnifiApi._client c)) in *.
  exists [Open (UnifiApi._client c); Get i (spec_request op); Close i].
  eexists. split; [|split; [|split; [|split]]].
  - rewrite T, client_call_run. reflexivity.
  - rewrite Hw. simpl. rewrite <- app_assoc. reflexivity.
  - simpl. rewrite Nat.eqb_refl. reflexivity.
  - reflexivity.
  - intros Hok. rewrite Hw. simpl. rewrite <- app_assoc, count_app.
    rewrite (count_close_fresh w i Hok).
    + simpl. rewrite Nat.eqb_refl. reflexivity.
    + subst i. rewrite Hc. simpl. lia.
Qed.

Lemma client_closed_exactly_once_witness :
  exists evs w',
    tool_call httpx_checks env_key_only upstream_404 fake_json_loads (ListDevices "abc") world0 =
      (fst (client_call upstream_404 fake_json_loads client0 (ListDevices "abc")
              (opened world0 (UnifiApi._client client0))), w')
    /\ log w' = log world0 ++ evs
    /\ count (is_close_of (ident (UnifiApi._client client0))) evs = 1
    /\ last evs = Some (Close (ident (UnifiApi._client client0)))
    /\ (World_ok world0 ->
        count (is_close_of (ident (UnifiApi._client client0))) (log w') = 1).
Proof.
  apply (client_closed_exactly_once httpx_checks env_key_only upstream_404 fake_json_loads
           (ListDevices "abc") world0
           (opened world0 (UnifiApi._client client0)) client0).
  vm_compute. reflexivity.
Defined.

(** ** Construction *)

Lemma api_key_cases (environ : gmap string string) :
  has_api_key environ
  \/ environ !! "UNIFI_API_KEY" = None
  \/ environ !! "UNIFI_API_KEY" = Some EmptyString.
Proof.
  unfold has_api_key.
  destruct (environ !! "UNIFI_API_KEY") as [k|]; [|right; left; reflexivity].
  destruct (String.eqb_spec k EmptyString) as [->|Hk].
  - right; right; reflexivity.
  - left. exists k. split; [reflexivity | exact Hk].
Qed.

(** C2, as stated, fails: with the API key set to [secret] and
    [UNIFI_TIMEOUT] set to [abc], the constructor raises [ValueError] from
    [float], so a non-empty API key does not make construction succeed. *)
Lemma nonempty_key_not_sufficient :
  has_api_key env_bad_timeout
  /\ UnifiApi.__init__ httpx_checks env_bad_timeout world0
     = (Raises (ValueError "abc"), world0)
  /\ ~ (forall validate environ w,
          has_api_key environ ->
          exists c w', UnifiApi.__init__ validate environ w = (Returns c, w')).
Proof.
  assert (K : has_api_key env_bad_timeout).
  { exists "secret". split; [vm_compute; reflexivity | discriminate]. }
  assert (E : UnifiApi.__init__ httpx_checks env_bad_timeout world0
              = (Raises (ValueError "abc"), world0)).
  { vm_compute. reflexivity. }
  split; [exact K | split; [exact E|]].
  intros H. destruct (H httpx_checks env_bad_timeout world0 K) as (c & w' & Hc).
  rewrite E in Hc. discriminate.
Qed.

(** C2, amended.  Without an API key (unset or empty) the constructor
    raises [ConfigurationError] and leaves the world as it was: no client
    is opened and no request issued, and each tool fails the same way.
    With a non-empty key the outcome is decided further on: an ASCII
    timeout text that [float] rejects gives [ValueError]; a timeout text
    that [float] accepts hands base address, headers and timeout to httpx,
    and construction succeeds exactly when httpx accepts them, the only
    new event then being the opening of the connection context, and
    raises httpx's exception otherwise.  Whenever construction fails the
    world is untouched, and it succeeds only with a non-empty key. *)
Theorem construction_outcome
    (validate : Validation) (environ : gmap string string) (w : World) :
  (~ has_api_key environ ->
     UnifiApi.__init__ validate environ w = (Raises ConfigurationError, w)
     /\ forall upstream json_loads op,
          tool_call validate environ upstream json_loads op w
          = (Raises ConfigurationError, w))
  /\ (has_api_key environ ->
      is_ascii (timeout_text environ) = true ->
      PyFloat.of_string (timeout_text environ) = None ->
      UnifiApi.__init__ validate environ w
      = (Raises (ValueError (timeout_text environ)), w))
  /\ (forall k f,
        environ !! "UNIFI_API_KEY" = Some k -> k <> EmptyString ->
        PyFloat.of_string (timeout_text environ) = Some f ->
        let ctx := context_of environ k f (next_ident w) in
        (validate (base_url ctx) (headers ctx) (timeout ctx) = None ->
         exists c,
           UnifiApi._client c = ctx
           /\ UnifiApi.__init__ validate environ w = (Returns c, opened w ctx))
        /\ (forall e,
              validate (base_url ctx) (headers ctx) (timeout ctx) = Some e ->
              UnifiApi.__init__ validate environ w = (Raises e, w)))
  /\ (forall e w',
        UnifiApi.__init__ validate environ w = (Raises e, w') -> w' = w)
  /\ (forall c w',
        UnifiApi.__init__ validate environ w = (Returns c, w') ->
        has_api_key environ
        /\ validate (base_url (UnifiApi._client c)) (headers (UnifiApi._client c))
                    (timeout (UnifiApi._client c)) = None
        /\ log w' = log w ++ [Open (UnifiApi._client c)]).
Proof.
  split; [|split; [|split; [|split]]].
  - intros Hno.
    assert (E : UnifiApi.__init__ validate environ w = (Raises ConfigurationError, w)).
    { destruct (api_key_cases environ) as [Hk|Hk]; [contradiction|].
      apply init_without_key, Hk. }
    split; [exact E|]. intros upstream json_loads op.
    apply tool_call_not_built, E.
  - intros (k & K & Hk) _ Hf. rewrite (init_with_key _ _ _ _ K Hk), Hf. reflexivity.
  - intros k f K Hk Hf ctx. rewrite (init_with_key _ _ _ _ K Hk), Hf. cbv zeta.
    change (UnifiApi._client (built_client environ k f w)) with ctx. split.
    + intros V. rewrite V. eexists. split; reflexivity.
    + intros e V. rewrite V. reflexivity.
  - intros e w' E. eapply init_raises_unchanged, E.
  - intros c w' E.
    pose proof (init_accepted _ _ _ _ _ E) as V.
    destruct (init_returns _ _ _ _ _ E) as (k & f & K & Hk & _ & _ & ->).
    split; [exists k; split; assumption | split; [exact V | reflexivity]].
Qed.

Lemma construction_outcome_witness :
  (UnifiApi.__init__ httpx_checks env_no_key world0
   = (Raises ConfigurationError, world0)
   /\ forall upstream json_loads op,
        tool_call httpx_checks env_no_key upstream json_loads op world0
        = (Raises ConfigurationError, world0))
  /\ UnifiApi.__init__ httpx_checks env_bad_timeout world0
     = (Raises (ValueError (timeout_text env_bad_timeout)), world0)
  /\ (exists c,
        UnifiApi._client c
        = context_of env_key_only "secret" (PyFloat.Dec false 30 0) 0
        /\ UnifiApi.__init__ httpx_checks env_key_only world0
           = (Returns c,
              opened world0
                (context_of env_key_only "secret" (PyFloat.Dec false 30 0) 0)))
  /\ UnifiApi.__init__ httpx_checks env_accented_key world0
     = (Raises (OtherError "UnicodeEncodeError"), world0).
Proof.
  split; [|split; [|split]].
  - apply (proj1 (construction_outcome httpx_checks env_no_key world0)).
    intros (k & K & _). vm_compute in K. discriminate.
  - apply (proj1 (proj2 (construction_outcome httpx_checks env_bad_timeout world0))).
    + exists "secret". split; [vm_compute; reflexivity | discriminate].
    + vm_compute. reflexivity.
    + vm_compute. reflexivity.
  - apply (proj1 (proj1 (proj2 (proj2
             (construction_outcome httpx_checks env_key_only world0)))
             "secret" (PyFloat.Dec false 30 0)
             ltac:(vm_compute; reflexivity) ltac:(discriminate)
             ltac:(vm_compute; reflexivity))).
    vm_compute. reflexivity.
  - apply (proj2 (proj1 (proj2 (proj2
             (construction_outcome httpx_checks env_accented_key world0)))
             accented_key (PyFloat.Dec false 30 0)
             ltac:(vm_compute; reflexivity) ltac:(discriminate)
             ltac:(vm_compute; reflexivity))).
    vm_compute. reflexivity.
Defined.

(** ** Outcomes of an operation *)

Lemma UpstreamError_of_response (r : Response) :
  UpstreamError (status_code r) (content r) = HTTPStatusError r.
Proof. destruct r; reflexivity. Qed.

(** C3.  Whichever operation is called, when the upstream answers its
    request with a status outside 200..299 the operation raises
    [UpstreamError] holding that status code and that body, and a tool that
    got its client hands the same failure to its caller.  In particular,
    against an upstream answering 404 to [/devices?siteId=abc],
    [list_devices("abc")] raises [UpstreamError] with status 404. *)
Theorem non_success_status_raises (validate : Validation)
    (upstream : Upstream) (json_loads : string -> Outcome Json)
    (c : UnifiApi.UniFiSiteManagerClient) (op : Operation) (w : World)
    (r : Response) :
  upstream (UnifiApi._client c) (spec_request op) = Returns r ->
  is_success r = false ->
  fst (client_call upstream json_loads c op w)
    = Raises (UpstreamError (status_code r) (content r))
  /\ (forall environ w0,
        UnifiApi.__init__ validate environ w0 = (Returns c, w) ->
        fst (tool_call validate environ upstream json_loads op w0)
          = Raises (UpstreamError (status_code r) (content r)))
  /\ (op = ListDevices "abc" -> status_code r = 404%Z ->
      fst (UnifiApi.list_devices upstream json_loads c "abc" w)
        = Raises (UpstreamError 404 (content r))).
Proof.
  intros Hr Hs.
  assert (S : settle json_loads (upstream (UnifiApi._client c) (spec_request op))
              = Raises (UpstreamError (status_code r) (content r))).
  { rewrite Hr. simpl. rewrite Hs. rewrite UpstreamError_of_response. reflexivity. }
  split; [|split].
  - rewrite client_call_run. exact S.
  - intros environ w0 H. rewrite (tool_call_outcome _ _ _ _ _ _ _ _ H). exact S.
  - intros -> H404. rewrite <- H404.
    change (UnifiApi.list_devices upstream json_loads c "abc" w)
      with (client_call upstream json_loads c (ListDevices "abc") w).
    rewrite client_call_run. exact S.
Qed.

Lemma non_success_status_raises_witness :
  fst (UnifiApi.list_devices upstream_404 fake_json_loads client0 "abc" world0)
    = Raises (UpstreamError 404 "not found").
Proof.
  apply (proj2 (proj2
    (non_success_status_raises httpx_checks upstream_404 fake_json_loads client0
       (ListDevices "abc") world0
       {| status_code := 404; content := "not found" |}
       ltac:(vm_compute; reflexivity) ltac:(vm_compute; reflexivity))));
    reflexivity.
Defined.

(** C4.  Whichever operation is called, when the GET fails in the
    transport (a network failure or a timeout, both raised by httpx as
    [TransportError]) the operation raises that [TransportError] after a
    single request, and a tool that got its client hands that same failure
    to its caller: the invocation's events are the opening of the client,
    one GET and the close, so nothing is sent a second time. *)
Theorem transport_failure_surfaced (validate : Validation)
    (environ : gmap string string) (upstream : Upstream)
    (json_loads : string -> Outcome Json) (op : Operation) (w w1 : World)
    (c : UnifiApi.UniFiSiteManagerClient) (k : TransportKind) :
  UnifiApi.__init__ validate environ w = (Returns c, w1) ->
  upstream (UnifiApi._client c) (spec_request op) = Raises (TransportError k) ->
  client_call upstream json_loads c op w1
    = (Raises (TransportError k),
       extend w1 [Get (ident (UnifiApi._client c)) (spec_request op)])
  /\ exists w',
       tool_call validate environ upstream json_loads op w = (Raises (TransportError k), w')
       /\ log w' = log w ++ [Open (UnifiApi._client c);
                             Get (ident (UnifiApi._client c)) (spec_request op);
                             Close (ident (UnifiApi._client c))]
       /\ count is_get (log w') = count is_get (log w) + 1.
Proof.
  intros H Hu. split.
  - rewrite client_call_run, Hu. reflexivity.
  - eexists. split; [|split].
    + rewrite (tool_call_outcome _ _ _ _ _ _ _ _ H), Hu. reflexivity.
    + destruct (init_returns _ _ _ _ _ H) as (k0 & f & _ & _ & _ & _ & ->).
      simpl. rewrite <- app_assoc. reflexivity.
    + destruct (init_returns _ _ _ _ _ H) as (k0 & f & _ & _ & _ & _ & ->).
      simpl. rewrite !count_app. simpl. lia.
Qed.

Lemma transport_failure_surfaced_witness :
  client_call upstream_stalled fake_json_loads client0 ListHosts
      (opened world0 (UnifiApi._client client0))
    = (Raises (TransportError TimeoutException),
       extend (opened world0 (UnifiApi._client client0))
         [Get (ident (UnifiApi._client client0)) (spec_request ListHosts)])
  /\ exists w',
       tool_call httpx_checks env_key_only upstream_stalled fake_json_loads ListHosts world0
         = (Raises (TransportError TimeoutException), w')
       /\ log w' = log world0 ++ [Open (UnifiApi._client client0);
                                  Get (ident (UnifiApi._client client0))
                                      (spec_request ListHosts);
                                  Close (ident (UnifiApi._client client0))]
       /\ count is_get (log w') = count is_get (log world0) + 1.
Proof.
  apply (transport_failure_surfaced httpx_checks env_key_only upstream_stalled fake_json_loads
           ListHosts world0 (opened world0 (UnifiApi._client client0)) client0
           TimeoutException).
  - vm_compute. reflexivity.
  - reflexivity.
Defined.

(** C5.  Whichever operation is called, when the upstream answers its
    request with a status in 200..299 and a body that decodes as JSON, the
    operation returns the decoded value itself, and so does a tool that got
    its client.  In particular, against an upstream answering 200 with
    [{"hosts":[]}], [list_hosts()] returns the decoding of that body. *)
Theorem success_returns_decoded_body (validate : Validation)
    (upstream : Upstream) (json_loads : string -> Outcome Json)
    (c : UnifiApi.UniFiSiteManagerClient) (op : Operation) (w : World)
    (r : Response) (v : Json) :
  upstream (UnifiApi._client c) (spec_request op) = Returns r ->
  is_success r = true ->
  json_loads (content r) = Returns v ->
  fst (client_call upstream json_loads c op w) = Returns v
  /\ (forall environ w0,
        UnifiApi.__init__ validate environ w0 = (Returns c, w) ->
        fst (tool_call validate environ upstream json_loads op w0) = Returns v)
  /\ (op = ListHosts -> status_code r = 200%Z -> content r = hosts_body ->
      fst (UnifiApi.list_hosts upstream json_loads c w) = Returns v).
Proof.
  intros Hr Hs Hj.
  assert (S : settle json_loads (upstream (UnifiApi._client c) (spec_request op))
              = Returns v).
  { rewrite Hr. simpl. rewrite Hs, Hj. reflexivity. }
  split; [|split].
  - rewrite client_call_run. exact S.
  - intros environ w0 H. rewrite (tool_call_outcome _ _ _ _ _ _ _ _ H). exact S.
  - intros -> _ _.
    change (UnifiApi.list_hosts upstream json_loads c w)
      with (client_call upstream json_loads c ListHosts w).
    rewrite client_call_run. exact S.
Qed.

Lemma success_returns_decoded_body_witness :
  fst (UnifiApi.list_hosts upstream_hosts fake_json_loads client0 world0)
    = Returns hosts_json.
Proof.
  apply (proj2 (proj2
    (success_returns_decoded_body httpx_checks upstream_hosts fake_json_loads client0
       ListHosts world0 {| status_code := 200; content := hosts_body |} hosts_json
       ltac:(reflexivity) ltac:(reflexivity) ltac:(vm_compute; reflexivity))));
    reflexivity.
Defined.

(** ** [health] *)

(** C6.  In every environment and every world, [health()] returns without
    touching the world (no client is built, nothing is sent), and what it
    returns is a mapping whose keys are exactly [status], [transport],
    [base_url] and [api_version], the last two being the values of
    [UNIFI_BASE_URL] and [UNIFI_API_VERSION] or, when these are unset,
    [https://api.ui.com] and [v1]. *)
Theorem health_is_static (environ : gmap string string) (w : World) :
  exists d : gmap string string,
    Server.health environ w = (Returns d, w)
    /\ dom d = ({[ "status"; "transport"; "base_url"; "api_version" ]} : gset string)
    /\ d !! "status" = Some "ok"
    /\ d !! "transport" = Some "streamable-http"
    /\ d !! "base_url"
       = Some (default "https://api.ui.com" (environ !! "UNIFI_BASE_URL"))
    /\ d !! "api_version"
       = Some (default "v1" (environ !! "UNIFI_API_VERSION")).
Proof.
  eexists. split; [reflexivity|].
  split; [rewrite !dom_insert_L, dom_empty_L; set_solver | repeat split].
Qed.

(** ** Requests *)

(** C7.  Each operation adds exactly one event to the log, a GET issued
    through its own client: [/hosts] and [/sites] without query parameters,
    [/devices] and [/isp-metrics] with the single parameter [siteId] set to
    the identifier it was given. *)
Theorem one_get_per_operation
    (upstream : Upstream) (json_loads : string -> Outcome Json)
    (c : UnifiApi.UniFiSiteManagerClient) (w : World) :
  let i := ident (UnifiApi._client c) in
  snd (UnifiApi.list_hosts upstream json_loads c w)
    = extend w [Get i {| path := "/hosts"; params := [] |}]
  /\ snd (UnifiApi.list_sites upstream json_loads c w)
     = extend w [Get i {| path := "/sites"; params := [] |}]
  /\ (forall site_id,
        snd (UnifiApi.list_devices upstream json_loads c site_id w)
        = extend w [Get i {| path := "/devices"; params := [("siteId", site_id)] |}])
  /\ (forall site_id,
        snd (UnifiApi.get_isp_metrics upstream json_loads c site_id w)
        = extend w [Get i {| path := "/isp-metrics";
                             params := [("siteId", site_id)] |}])
  /\ (forall op,
        count is_get (log (snd (client_call upstream json_loads c op w)))
        = count is_get (log w) + 1).
Proof.
  intros i. split; [|split; [|split; [|split]]].
  - apply (f_equal snd (client_call_run upstream json_loads c ListHosts w)).
  - apply (f_equal snd (client_call_run upstream json_loads c ListSites w)).
  - intros site_id.
    apply (f_equal snd (client_call_run upstream json_loads c (ListDevices site_id) w)).
  - intros site_id.
    apply (f_equal snd
             (client_call_run upstream json_loads c (GetIspMetrics site_id) w)).
  - intros op. rewrite client_call_run. simpl. rewrite count_app. reflexivity.
Qed.

(** ** Site identifiers *)

(** C8, as stated, fails: the dispatcher does not require the site
    identifier to be non-empty.  [list_devices("")] builds a client, sends
    [GET /devices] with [siteId] empty and returns what the upstream
    answers. *)
Lemma empty_site_id_not_rejected :
  Server.list_devices httpx_checks env_key_only upstream_hosts fake_json_loads "" world0
    = (Returns hosts_json,
       {| next_ident := 1;
          log := [Open (UnifiApi._client client0);
                  Get 0 {| path := "/devices"; params := [("siteId", "")] |};
                  Close 0] |})
  /\ ~ (forall validate environ upstream json_loads w,
          count is_get
            (log (snd (Server.list_devices validate environ upstream json_loads "" w)))
          = count is_get (log w)).
Proof.
  assert (E : Server.list_devices httpx_checks env_key_only upstream_hosts fake_json_loads "" world0
              = (Returns hosts_json,
                 {| next_ident := 1;
                    log := [Open (UnifiApi._client client0);
                            Get 0 {| path := "/devices"; params := [("siteId", "")] |};
                            Close 0] |})).
  { vm_compute. reflexivity. }
  split; [exact E|].
  intros H.
  specialize (H httpx_checks env_key_only upstream_hosts fake_json_loads world0).
  rewrite E in H. simpl in H. discriminate.
Qed.

(** C8, amended.  [list_devices] and [get_isp_metrics] take the site
    identifier as a required text argument and do not inspect it: for every
    text, the empty one included, the tool that got its client passes the
    identifier unchanged to the client operation, whose single GET carries
    it as [siteId]; the tool's outcome is the operation's, so a status
    outside 200..299 answered by the upstream reaches the caller as
    [UpstreamError]. *)
Theorem site_id_passed_through (validate : Validation)
    (environ : gmap string string) (upstream : Upstream)
    (json_loads : string -> Outcome Json) (site_id : string) (w w1 : World)
    (c : UnifiApi.UniFiSiteManagerClient) :
  UnifiApi.__init__ validate environ w = (Returns c, w1) ->
  let i := ident (UnifiApi._client c) in
  let devices := {| path := "/devices"; params := [("siteId", site_id)] |} in
  let metrics := {| path := "/isp-metrics"; params := [("siteId", site_id)] |} in
  Server.list_devices validate environ upstream json_loads site_id w
    = (fst (UnifiApi.list_devices upstream json_loads c site_id w1),
       extend w1 [Get i devices; Close i])
  /\ Server.get_isp_metrics validate environ upstream json_loads site_id w
     = (fst (UnifiApi.get_isp_metrics upstream json_loads c site_id w1),
        extend w1 [Get i metrics; Close i])
  /\ (forall r,
        upstream (UnifiApi._client c) devices = Returns r -> is_success r = false ->
        fst (Server.list_devices validate environ upstream json_loads site_id w)
        = Raises (UpstreamError (status_code r) (content r)))
  /\ (forall r,
        upstream (UnifiApi._client c) metrics = Returns r -> is_success r = false ->
        fst (Server.get_isp_metrics validate environ upstream json_loads site_id w)
        = Raises (UpstreamError (status_code r) (content r))).
Proof.
  intros H i devices metrics.
  pose proof (tool_call_outcome validate environ upstream json_loads (ListDevices site_id)
                w w1 c H) as D.
  pose proof (tool_call_outcome validate environ upstream json_loads (GetIspMetrics site_id)
                w w1 c H) as M.
  pose proof (client_call_run upstream json_loads c (ListDevices site_id) w1) as CD.
  pose proof (client_call_run upstream json_loads c (GetIspMetrics site_id) w1) as CM.
  simpl in D, M, CD, CM. fold i devices in D, CD. fold i metrics in M, CM.
  split; [|split; [|split]].
  - rewrite D, CD. reflexivity.
  - rewrite M, CM. reflexivity.
  - intros r Hr Hs. rewrite D, Hr. simpl. rewrite Hs, UpstreamError_of_response.
    reflexivity.
  - intros r Hr Hs. rewrite M, Hr. simpl. rewrite Hs, UpstreamError_of_response.
    reflexivity.
Qed.

Lemma site_id_passed_through_witness :
  let c := client0 in
  let w1 := opened world0 (UnifiApi._client client0) in
  let i := ident (UnifiApi._client c) in
  let devices := {| path := "/devices"; params := [("siteId", "")] |} in
  let metrics := {| path := "/isp-metrics"; params := [("siteId", "")] |} in
  Server.list_devices httpx_checks env_key_only upstream_hosts fake_json_loads "" world0
    = (fst (UnifiApi.list_devices upstream_hosts fake_json_loads c "" w1),
       extend w1 [Get i devices; Close i])
  /\ Server.get_isp_metrics httpx_checks env_key_only upstream_hosts fake_json_loads "" world0
     = (fst (UnifiApi.get_isp_metrics upstream_hosts fake_json_loads c "" w1),
        extend w1 [Get i metrics; Close i])
  /\ (forall r,
        upstream_hosts (UnifiApi._client c) devices = Returns r ->
        is_success r = false ->
        fst (Server.list_devices httpx_checks env_key_only upstream_hosts fake_json_loads "" world0)
        = Raises (UpstreamError (status_code r) (content r)))
  /\ (forall r,
        upstream_hosts (UnifiApi._client c) metrics = Returns r ->
        is_success r = false ->
        fst (Server.get_isp_metrics httpx_checks env_key_only upstream_hosts fake_json_loads ""
               world0)
        = Raises (UpstreamError (status_code r) (content r))).
Proof.
  apply (site_id_passed_through httpx_checks env_key_only upstream_hosts fake_json_loads ""
           world0 (opened world0 (UnifiApi._client client0)) client0).
  vm_compute. reflexivity.
Defined.

(** ** Configuration *)

Lemma last_char_append (a b : string) :
  b <> EmptyString -> PyStr.last_char (a +:+ b) = PyStr.last_char b.
Proof.
  intros Hb. induction a as [|c a IH]; [reflexivity|].
  rewrite append_cons. simpl. rewrite IH.
  destruct (a +:+ b) eqn:E; [|reflexivity].
  destruct a; [rewrite append_empty in E; contradiction | discriminate].
Qed.

(** C9.  A constructed client holds the configuration read from the
    environment: base URL, version segment and timeout come from
    [UNIFI_BASE_URL], [UNIFI_API_VERSION] and [UNIFI_TIMEOUT], and are
    [https://api.ui.com], [v1] and 30 when the variable is unset.  Its
    connection context is bound to the base URL, a slash and the version,
    is given the headers [X-API-KEY] (the API key) and [Accept:
    application/json], and is given the timeout. *)
Theorem construction_reads_configuration (validate : Validation)
    (environ : gmap string string) (w w' : World)
    (c : UnifiApi.UniFiSiteManagerClient) :
  UnifiApi.__init__ validate environ w = (Returns c, w') ->
  UnifiApi.base_url c
    = PyStr.rstrip "/" (default "https://api.ui.com" (environ !! "UNIFI_BASE_URL"))
  /\ UnifiApi.version c
     = PyStr.strip "/" (default "v1" (environ !! "UNIFI_API_VERSION"))
  /\ PyFloat.of_string (default "30" (environ !! "UNIFI_TIMEOUT"))
     = Some (UnifiApi.timeout_s c)
  /\ (environ !! "UNIFI_BASE_URL" = None -> UnifiApi.base_url c = "https://api.ui.com")
  /\ (environ !! "UNIFI_API_VERSION" = None -> UnifiApi.version c = "v1")
  /\ (environ !! "UNIFI_TIMEOUT" = None ->
      UnifiApi.timeout_s c = PyFloat.Dec false 30 0)
  /\ base_url (UnifiApi._client c)
     = UnifiApi.base_url c +:+ "/" +:+ UnifiApi.version c
  /\ (exists k,
        environ !! "UNIFI_API_KEY" = Some k
        /\ headers (UnifiApi._client c)
           = [("X-API-KEY", k); ("Accept", "application/json")])
  /\ timeout (UnifiApi._client c) = UnifiApi.timeout_s c
  /\ (environ !! "UNIFI_BASE_URL" = None ->
      environ !! "UNIFI_API_VERSION" = None ->
      base_url (UnifiApi._client c) = "https://api.ui.com/v1").
Proof.
  intros H. destruct (init_returns _ _ _ _ _ H) as (k & f & K & _ & F & -> & _).
  unfold built_client, timeout_text, Os.getenv_or in *. simpl.
  repeat match goal with |- _ /\ _ => split end; try reflexivity.
  - exact F.
  - intros ->. reflexivity.
  - intros ->. reflexivity.
  - intros E. rewrite E in F. vm_compute in F. congruence.
  - exists k. split; [exact K | reflexivity].
  - intros -> ->. reflexivity.
Qed.

Lemma construction_reads_configuration_witness :
  UnifiApi.base_url client0
    = PyStr.rstrip "/" (default "https://api.ui.com" (env_key_only !! "UNIFI_BASE_URL"))
  /\ UnifiApi.version client0
     = PyStr.strip "/" (default "v1" (env_key_only !! "UNIFI_API_VERSION"))
  /\ PyFloat.of_string (default "30" (env_key_only !! "UNIFI_TIMEOUT"))
     = Some (UnifiApi.timeout_s client0)
  /\ (env_key_only !! "UNIFI_BASE_URL" = None ->
      UnifiApi.base_url client0 = "https://api.ui.com")
  /\ (env_key_only !! "UNIFI_API_VERSION" = None -> UnifiApi.version client0 = "v1")
  /\ (env_key_only !! "UNIFI_TIMEOUT" = None ->
      UnifiApi.timeout_s client0 = PyFloat.Dec false 30 0)
  /\ base_url (UnifiApi._client client0)
     = UnifiApi.base_url client0 +:+ "/" +:+ UnifiApi.version client0
  /\ (exists k,
        env_key_only !! "UNIFI_API_KEY" = Some k
        /\ headers (UnifiApi._client client0)
           = [("X-API-KEY", k); ("Accept", "application/json")])
  /\ timeout (UnifiApi._client client0) = UnifiApi.timeout_s client0
  /\ (env_key_only !! "UNIFI_BASE_URL" = None ->
      env_key_only !! "UNIFI_API_VERSION" = None ->
      base_url (UnifiApi._client client0) = "https://api.ui.com/v1").
Proof.
  apply (construction_reads_configuration httpx_checks env_key_only world0
           (opened world0 (UnifiApi._client client0)) client0).
  vm_compute. reflexivity.
Defined.

(** The client that [env_slashes] yields in the initial world. *)
Lemma init_env_slashes :
  exists c,
    UnifiApi.__init__ httpx_checks env_slashes world0
      = (Returns c, opened world0 (UnifiApi._client c))
    /\ base_url (UnifiApi._client c) = "https://api.ui.com/v1".
Proof.
  exists (built_client env_slashes "secret" (PyFloat.Dec false 30 0) world0).
  split; vm_compute; reflexivity.
Qed.

(** C10.  Before the base address is formed, the constructor strips the
    base URL of all its trailing slashes and the version segment of all its
    leading and trailing slashes: what is removed consists of slashes only,
    what is kept neither ends (base URL, version) nor starts (version)
    with a slash, and the base address is the two joined by one slash, so
    it has no trailing slash unless the version is empty.  With base URL
    [https://api.ui.com/] and version [/v1/] the base address is
    [https://api.ui.com/v1]. *)
Theorem base_address_normalized (validate : Validation)
    (environ : gmap string string) (w w' : World)
    (c : UnifiApi.UniFiSiteManagerClient) :
  UnifiApi.__init__ validate environ w = (Returns c, w') ->
  let raw_base := default "https://api.ui.com" (environ !! "UNIFI_BASE_URL") in
  let raw_version := default "v1" (environ !! "UNIFI_API_VERSION") in
  (exists t,
     raw_base = UnifiApi.base_url c +:+ t /\ PyStr.all_in "/" t = true)
  /\ PyStr.endswith "/" (UnifiApi.base_url c) = false
  /\ (exists p t,
        raw_version = p +:+ UnifiApi.version c +:+ t
        /\ PyStr.all_in "/" p = true /\ PyStr.all_in "/" t = true)
  /\ PyStr.startswith "/" (UnifiApi.version c) = false
  /\ PyStr.endswith "/" (UnifiApi.version c) = false
  /\ base_url (UnifiApi._client c)
     = UnifiApi.base_url c +:+ "/" +:+ UnifiApi.version c
  /\ (UnifiApi.version c <> EmptyString ->
      PyStr.endswith "/" (base_url (UnifiApi._client c)) = false)
  /\ (raw_base = "https://api.ui.com/" -> raw_version = "/v1/" ->
      base_url (UnifiApi._client c) = "https://api.ui.com/v1").
Proof.
  intros H raw_base raw_version.
  destruct (init_returns _ _ _ _ _ H) as (k & f & _ & _ & _ & -> & _).
  unfold built_client, Os.getenv_or. simpl. fold raw_base raw_version.
  assert (Ev : PyStr.endswith "/" (PyStr.strip "/" raw_version) = false).
  { apply (endswith_false_of_last _ "/"); [reflexivity|].
    intros d. apply last_char_strip. }
  repeat match goal with |- _ /\ _ => split end.
  - apply rstrip_split.
  - apply (endswith_false_of_last _ "/"); [reflexivity|].
    intros d. apply last_char_rstrip.
  - apply strip_split.
  - apply (startswith_false_of_first _ "/"); [reflexivity|].
    intros d. apply first_char_strip.
  - exact Ev.
  - reflexivity.
  - intros Hv. unfold PyStr.endswith in *.
    rewrite last_char_append.
    + rewrite append_cons, append_empty.
      destruct (PyStr.strip "/" raw_version) eqn:E; [contradiction|].
      exact Ev.
    + rewrite append_cons. discriminate.
  - intros -> ->. vm_compute. reflexivity.
Qed.

Lemma base_address_normalized_witness :
  base_url (UnifiApi._client
              (built_client env_slashes "secret" (PyFloat.Dec false 30 0) world0))
    = "https://api.ui.com/v1".
Proof.
  refine (proj2 (proj2 (proj2 (proj2 (proj2 (proj2 (proj2
    (base_address_normalized httpx_checks env_slashes world0
       (opened world0
          (UnifiApi._client
             (built_client env_slashes "secret" (PyFloat.Dec false 30 0) world0)))
       (built_client env_slashes "secret" (PyFloat.Dec false 30 0) world0)
       _))))))) _ _); vm_compute; reflexivity.
Defined.

(** * Further properties *)

(** ** [int] on sample texts *)

Example int_3000 : PyInt.of_string 4300 "3000" = Some 3000%Z.
Proof. reflexivity. Qed.

Example int_padded : PyInt.of_string 0 " -1_0 " = Some (-10)%Z.
Proof. reflexivity. Qed.

Example int_rejects :
  map (PyInt.of_string 0) [""; "+"; "1__0"; "_1"; "1_"; "0x10"; "3.5"; "- 1"; "1 2"]
  = [None; None; None; None; None; None; None; None; None].
Proof. reflexivity. Qed.

Example int_too_long : PyInt.of_string 4 "12345" = None.
Proof. reflexivity. Qed.

(** ** The world after an invocation *)

Lemma tool_call_world (validate : Validation) (environ : gmap string string)
    (upstream : Upstream) (json_loads : string -> Outcome Json)
    (op : Operation) (w : World) :
  snd (tool_call validate environ upstream json_loads op w) = w
  \/ exists c w1,
       UnifiApi.__init__ validate environ w = (Returns c, w1)
       /\ ident (UnifiApi._client c) = next_ident w
       /\ snd (tool_call validate environ upstream json_loads op w)
          = after_session w (UnifiApi._client c, spec_request op).
Proof.
  destruct (UnifiApi.__init__ validate environ w) as [[c|e] w1] eqn:E.
  - right. exists c, w1. split; [reflexivity|].
    rewrite (tool_call_outcome _ _ _ _ _ _ _ _ E).
    destruct (init_returns _ _ _ _ _ E) as (k & f & _ & _ & _ & Hc & ->).
    split; [rewrite Hc; reflexivity|].
    unfold extend, opened, after_session, session. simpl.
    rewrite <- app_assoc. reflexivity.
  - left. rewrite (tool_call_not_built _ _ _ _ _ _ _ _ E). simpl.
    eapply init_raises_unchanged, E.
Qed.

(** ** Sessions *)

Lemma invoke_all_sessions (validate : Validation)
    (environ : gmap string string) (upstream : Upstream)
    (json_loads : string -> Outcome Json) (ops : list Operation) (w : World) :
  exists crs : list (AsyncClient * Request),
    log (invoke_all validate environ upstream json_loads ops w)
      = log w ++ concat (map session crs)
    /\ map (fun cr => ident (fst cr)) crs = seq (next_ident w) (length crs)
    /\ next_ident (invoke_all validate environ upstream json_loads ops w)
       = next_ident w + length crs
    /\ length crs <= length ops
    /\ Forall (session_origin validate environ ops) crs.
Proof.
  revert w. induction ops as [|op ops IH]; intros w; simpl.
  - exists []. simpl. rewrite app_nil_r.
    split; [reflexivity | split; [reflexivity | split; [lia | split; [lia|]]]].
    constructor.
  - assert (Hmono : forall cr, session_origin validate environ ops cr ->
                               session_origin validate environ (op :: ops) cr).
    { intros cr [(op0 & Hin & Hr) Hc]. split; [|exact Hc].
      exists op0. split; [right; exact Hin | exact Hr]. }
    destruct (tool_call_world validate environ upstream json_loads op w)
      as [E|(c & w1 & Hinit & Hc & E)];
      rewrite E;
      destruct (IH (snd (tool_call validate environ upstream json_loads op w)))
        as (crs & L & I & N & B & O); rewrite E in L, I, N.
    + exists crs.
      split; [exact L | split; [exact I | split; [exact N | split; [lia|]]]].
      eapply Forall_impl; [exact O | exact Hmono].
    + exists ((UnifiApi._client c, spec_request op) :: crs). simpl in *.
      split; [|split; [|split; [|split]]].
      * rewrite L, <- app_assoc. reflexivity.
      * rewrite Hc, I. reflexivity.
      * rewrite N. lia.
      * lia.
      * constructor.
        -- split; [exists op; split; [left; reflexivity | reflexivity]|].
           exists c, w, w1. split; [exact Hinit | reflexivity].
        -- eapply Forall_impl; [exact O | exact Hmono].
Qed.

(** Whatever the environment, the upstream and the invocations, the log of
    a run grows by complete sessions only: each is the opening of a client,
    one GET through it and its close, sessions do not overlap, and their
    clients are new and pairwise distinct (numbered consecutively).  There
    are at most as many sessions as invocations. *)
Theorem invocations_leave_complete_sessions (validate : Validation)
    (environ : gmap string string) (upstream : Upstream)
    (json_loads : string -> Outcome Json) (ops : list Operation) (w : World) :
  exists crs : list (AsyncClient * Request),
    log (invoke_all validate environ upstream json_loads ops w)
      = log w ++ concat (map session crs)
    /\ map (fun cr => ident (fst cr)) crs = seq (next_ident w) (length crs)
    /\ next_ident (invoke_all validate environ upstream json_loads ops w)
       = next_ident w + length crs
    /\ length crs <= length ops.
Proof.
  destruct (invoke_all_sessions validate environ upstream json_loads ops w)
    as (crs & L & I & N & B & _).
  exists crs. split; [exact L | split; [exact I | split; [exact N | exact B]]].
Qed.

Lemma context_of_built (environ : gmap string string) (k : string)
    (f : PyFloat.t) (w : World) :
  UnifiApi._client (built_client environ k f w)
  = context_of environ k f (next_ident w).
Proof. reflexivity. Qed.

Lemma count_get_session (cr : AsyncClient * Request) :
  count is_get (session cr) = 1.
Proof. reflexivity. Qed.

Lemma invoke_all_valid_log (validate : Validation)
    (environ : gmap string string) (upstream : Upstream)
    (json_loads : string -> Outcome Json) (ops : list Operation) (w : World)
    (k : string) (f : PyFloat.t) :
  environ !! "UNIFI_API_KEY" = Some k -> k <> EmptyString ->
  PyFloat.of_string (timeout_text environ) = Some f ->
  validate (base_url (context_of environ k f 0))
           (headers (context_of environ k f 0)) f = None ->
  log (invoke_all validate environ upstream json_loads ops w)
    = log w ++ concat (imap (fun j op =>
                               session (context_of environ k f (next_ident w + j),
                                        spec_request op)) ops)
  /\ next_ident (invoke_all validate environ upstream json_loads ops w)
     = next_ident w + length ops
  /\ count is_get (log (invoke_all validate environ upstream json_loads ops w))
     = count is_get (log w) + length ops.
Proof.
  intros K Hk F V. revert w. induction ops as [|op ops IH]; intros w; simpl.
  - rewrite app_nil_r. repeat split; lia.
  - pose proof (init_accepts validate environ w k f K Hk F V) as E.
    rewrite (tool_call_outcome _ _ _ _ _ _ _ _ E). cbn [snd].
    rewrite context_of_built.
    set (c := context_of environ k f (next_ident w)).
    set (w2 := extend (opened w c) _).
    destruct (IH w2) as (L & N & G).
    assert (Hn : next_ident w2 = S (next_ident w)) by reflexivity.
    assert (Hl : log w2 = log w ++ session (c, spec_request op)).
    { unfold w2, extend, opened, session. simpl. rewrite <- app_assoc. reflexivity. }
    split; [|split].
    + rewrite L, Hl, <- app_assoc. f_equal.
      transitivity
        (session (c, spec_request op)
         ++ concat (imap (fun j op0 =>
                            session (context_of environ k f (next_ident w + S j),
                                     spec_request op0)) ops));
        [|unfold c; rewrite Nat.add_0_r; reflexivity].
      f_equal. f_equal.
      apply imap_ext. intros j x _. cbv beta. rewrite Hn.
      replace (S (next_ident w) + j) with (next_ident w + S j) by lia.
      reflexivity.
    + rewrite N, Hn. lia.
    + rewrite G, Hl, count_app, count_get_session. lia.
Qed.

(** With an API key, a timeout that [float] accepts and a configuration
    that httpx accepts, every invocation is one session: the log of a run
    grows by exactly one opening, one GET and one close per invocation, in
    the order of the invocations, the GET being the one of the operation
    invoked and the client a new one built from the same configuration. *)
Theorem valid_configuration_one_session_each (validate : Validation)
    (environ : gmap string string) (upstream : Upstream)
    (json_loads : string -> Outcome Json) (ops : list Operation) (w : World)
    (k : string) (f : PyFloat.t) :
  environ !! "UNIFI_API_KEY" = Some k -> k <> EmptyString ->
  PyFloat.of_string (timeout_text environ) = Some f ->
  validate (base_url (context_of environ k f 0))
           (headers (context_of environ k f 0)) f = None ->
  log (invoke_all validate environ upstream json_loads ops w)
    = log w ++ concat (imap (fun j op =>
                               session (context_of environ k f (next_ident w + j),
                                        spec_request op)) ops)
  /\ next_ident (invoke_all validate environ upstream json_loads ops w)
     = next_ident w + length ops
  /\ count is_get (log (invoke_all validate environ upstream json_loads ops w))
     = count is_get (log w) + length ops.
Proof.
  intros K Hk F V.
  destruct (invoke_all_valid_log validate environ upstream json_loads ops w k f
              K Hk F V) as (L & N & G).
  split; [exact L | split; [exact N | exact G]].
Qed.

Lemma valid_configuration_one_session_each_witness :
  log (invoke_all httpx_checks env_key_only upstream_404 fake_json_loads
         [ListHosts; ListDevices "abc"] world0)
    = log world0
      ++ concat (imap (fun j op =>
                         session (context_of env_key_only "secret"
                                    (PyFloat.Dec false 30 0) (next_ident world0 + j),
                                  spec_request op))
                      [ListHosts; ListDevices "abc"])
  /\ next_ident (invoke_all httpx_checks env_key_only upstream_404 fake_json_loads
                   [ListHosts; ListDevices "abc"] world0)
     = next_ident world0 + length [ListHosts; ListDevices "abc"]
  /\ count is_get (log (invoke_all httpx_checks env_key_only upstream_404
                          fake_json_loads [ListHosts; ListDevices "abc"] world0))
     = count is_get (log world0) + length [ListHosts; ListDevices "abc"].
Proof.
  apply (valid_configuration_one_session_each httpx_checks env_key_only upstream_404
           fake_json_loads [ListHosts; ListDevices "abc"] world0 "secret"
           (PyFloat.Dec false 30 0)).
  - vm_compute. reflexivity.
  - discriminate.
  - vm_compute. reflexivity.
  - vm_compute. reflexivity.
Defined.

(** When the client cannot be built nothing reaches the network.  That is
    so when the API key is unset or empty, when the timeout is an ASCII
    text that [float] refuses, and when httpx refuses the configuration:
    every invocation then fails with one and the same exception
    ([ConfigurationError] in the first case, [ValueError] in the second,
    httpx's own in the third), and any run of invocations leaves the world
    as it found it: no client built, no request sent. *)
Theorem invalid_configuration_no_traffic (validate : Validation)
    (environ : gmap string string) (upstream : Upstream)
    (json_loads : string -> Outcome Json) (w : World) :
  ~ has_api_key environ
  \/ (is_ascii (timeout_text environ) = true
      /\ PyFloat.of_string (timeout_text environ) = None)
  \/ (exists k f,
        environ !! "UNIFI_API_KEY" = Some k /\ k <> EmptyString
        /\ PyFloat.of_string (timeout_text environ) = Some f
        /\ validate (base_url (context_of environ k f 0))
                    (headers (context_of environ k f 0)) f <> None) ->
  (exists e,
     (forall op,
        tool_call validate environ upstream json_loads op w = (Raises e, w))
     /\ (~ has_api_key environ -> e = ConfigurationError)
     /\ (has_api_key environ ->
         PyFloat.of_string (timeout_text environ) = None ->
         e = ValueError (timeout_text environ))
     /\ (forall k f,
           environ !! "UNIFI_API_KEY" = Some k -> k <> EmptyString ->
           PyFloat.of_string (timeout_text environ) = Some f ->
           validate (base_url (context_of environ k f 0))
                    (headers (context_of environ k f 0)) f = Some e))
  /\ forall ops, invoke_all validate environ upstream json_loads ops w = w.
Proof.
  intros H.
  assert (T : exists e, UnifiApi.__init__ validate environ w = (Raises e, w)).
  { destruct (api_key_cases environ) as [(k & K & Hk)|Hno].
    - rewrite (init_with_key _ _ _ _ K Hk).
      destruct H as [H|[[_ H]|(k' & f & K' & _ & F & V)]].
      + exfalso. apply H. exists k. split; assumption.
      + rewrite H. eexists. reflexivity.
      + rewrite F. cbv zeta. rewrite K in K'. injection K' as <-.
        change (validate (base_url (context_of environ k f 0))
                         (headers (context_of environ k f 0)) f <> None) in V.
        change (UnifiApi._client (built_client environ k f w))
          with (context_of environ k f (next_ident w)).
        change (base_url (context_of environ k f (next_ident w)))
          with (base_url (context_of environ k f 0)).
        change (headers (context_of environ k f (next_ident w)))
          with (headers (context_of environ k f 0)).
        change (timeout (context_of environ k f (next_ident w))) with f.
        destruct (validate _ _ f) as [e|]; [|congruence].
        exists e. reflexivity.
    - exists ConfigurationError. apply init_without_key, Hno. }
  destruct T as (e & E).
  assert (T : forall op,
             tool_call validate environ upstream json_loads op w = (Raises e, w)).
  { intros op. apply tool_call_not_built, E. }
  split.
  - exists e. split; [exact T | split; [|split]].
    + intros Hno. destruct (api_key_cases environ) as [Hk|Hk]; [contradiction|].
      rewrite (init_without_key _ _ _ Hk) in E. congruence.
    + intros (k & K & Hk) F. rewrite (init_with_key _ _ _ _ K Hk), F in E.
      congruence.
    + intros k f K Hk F. rewrite (init_with_key _ _ _ _ K Hk), F in E.
      cbv zeta in E.
      change (UnifiApi._client (built_client environ k f w))
        with (context_of environ k f (next_ident w)) in E.
      change (base_url (context_of environ k f (next_ident w)))
        with (base_url (context_of environ k f 0)) in E.
      change (headers (context_of environ k f (next_ident w)))
        with (headers (context_of environ k f 0)) in E.
      change (timeout (context_of environ k f (next_ident w))) with f in E.
      destruct (validate _ _ f) as [e'|]; congruence.
  - intros ops. induction ops as [|op ops IH]; simpl; [reflexivity|].
    rewrite T. simpl. exact IH.
Qed.

Lemma invalid_configuration_no_traffic_witness :
  (exists e,
     (forall op,
        tool_call httpx_checks env_accented_key upstream_hosts fake_json_loads op
          world0
        = (Raises e, world0))
     /\ (~ has_api_key env_accented_key -> e = ConfigurationError)
     /\ (has_api_key env_accented_key ->
         PyFloat.of_string (timeout_text env_accented_key) = None ->
         e = ValueError (timeout_text env_accented_key))
     /\ (forall k f,
           env_accented_key !! "UNIFI_API_KEY" = Some k -> k <> EmptyString ->
           PyFloat.of_string (timeout_text env_accented_key) = Some f ->
           httpx_checks (base_url (context_of env_accented_key k f 0))
                        (headers (context_of env_accented_key k f 0)) f = Some e))
  /\ forall ops,
       invoke_all httpx_checks env_accented_key upstream_hosts fake_json_loads ops
         world0 = world0.
Proof.
  apply (invalid_configuration_no_traffic httpx_checks env_accented_key
           upstream_hosts fake_json_loads world0).
  right. right. exists accented_key, (PyFloat.Dec false 30 0).
  split; [vm_compute; reflexivity | split; [discriminate | split]].
  - vm_compute. reflexivity.
  - vm_compute. discriminate.
Defined.

(** ** Failures of an operation *)

(** A 2xx answer whose body fails to decode makes the operation raise the
    exception of the decoding, whichever it is ([JSONDecodeError] for text
    that is not JSON, [UnicodeDecodeError] for bytes that are not UTF-8):
    it is neither turned into [HTTPStatusError] or [TransportError] nor
    replaced by a value.  A tool that got its client raises the same
    exception and still closes the client. *)
Theorem decoding_failure_propagates_unchanged
    (validate : Validation) (environ : gmap string string) (upstream : Upstream)
    (json_loads : string -> Outcome Json) (op : Operation) (w w1 : World)
    (c : UnifiApi.UniFiSiteManagerClient) (r : Response) (e : Exn) :
  UnifiApi.__init__ validate environ w = (Returns c, w1) ->
  upstream (UnifiApi._client c) (spec_request op) = Returns r ->
  is_success r = true ->
  json_loads (content r) = Raises e ->
  fst (client_call upstream json_loads c op w1) = Raises e
  /\ tool_call validate environ upstream json_loads op w
     = (Raises e, after_session w (UnifiApi._client c, spec_request op)).
Proof.
  intros H Hr Hs Hj.
  assert (HS : settle json_loads (upstream (UnifiApi._client c) (spec_request op))
               = Raises e).
  { rewrite Hr. simpl. rewrite Hs, Hj. reflexivity. }
  split.
  - rewrite client_call_run. exact HS.
  - rewrite (tool_call_outcome _ _ _ _ _ _ _ _ H), HS.
    destruct (init_returns _ _ _ _ _ H) as (k & f & _ & _ & _ & _ & ->).
    unfold extend, opened, after_session, session. simpl.
    rewrite <- app_assoc. reflexivity.
Qed.

Lemma decoding_failure_propagates_unchanged_witness :
  fst (client_call upstream_not_utf8 fake_json_loads client0 ListSites
         (opened world0 (UnifiApi._client client0)))
    = Raises (OtherError "UnicodeDecodeError")
  /\ tool_call httpx_checks env_key_only upstream_not_utf8 fake_json_loads ListSites
       world0
     = (Raises (OtherError "UnicodeDecodeError"),
        after_session world0 (UnifiApi._client client0, spec_request ListSites)).
Proof.
  apply (decoding_failure_propagates_unchanged httpx_checks env_key_only
           upstream_not_utf8 fake_json_loads ListSites world0
           (opened world0 (UnifiApi._client client0)) client0
           {| status_code := 200; content := String (ascii_of_nat 255) EmptyString |}).
  - vm_compute. reflexivity.
  - reflexivity.
  - reflexivity.
  - vm_compute. reflexivity.
Defined.

(** Whatever exception the GET raises, be it httpx's or not, the operation
    and the tool raise that very exception: nothing is caught, wrapped or
    replaced by a default, and the client is closed after the one request. *)
Theorem get_exception_propagates_unchanged (validate : Validation)
    (environ : gmap string string) (upstream : Upstream)
    (json_loads : string -> Outcome Json) (op : Operation) (w w1 : World)
    (c : UnifiApi.UniFiSiteManagerClient) (e : Exn) :
  UnifiApi.__init__ validate environ w = (Returns c, w1) ->
  upstream (UnifiApi._client c) (spec_request op) = Raises e ->
  fst (client_call upstream json_loads c op w1) = Raises e
  /\ tool_call validate environ upstream json_loads op w
     = (Raises e, after_session w (UnifiApi._client c, spec_request op)).
Proof.
  intros H Hu. split.
  - rewrite client_call_run, Hu. reflexivity.
  - rewrite (tool_call_outcome _ _ _ _ _ _ _ _ H), Hu.
    destruct (init_returns _ _ _ _ _ H) as (k & f & _ & _ & _ & _ & ->).
    unfold extend, opened, after_session, session. simpl. rewrite <- app_assoc. reflexivity.
Qed.

Lemma get_exception_propagates_unchanged_witness :
  fst (client_call upstream_cancelled fake_json_loads client0 (GetIspMetrics "s1")
         (opened world0 (UnifiApi._client client0)))
    = Raises (OtherError "CancelledError")
  /\ tool_call httpx_checks env_key_only upstream_cancelled fake_json_loads (GetIspMetrics "s1")
       world0
     = (Raises (OtherError "CancelledError"),
        after_session world0
          (UnifiApi._client client0, spec_request (GetIspMetrics "s1"))).
Proof.
  apply (get_exception_propagates_unchanged httpx_checks env_key_only upstream_cancelled
           fake_json_loads (GetIspMetrics "s1") world0
           (opened world0 (UnifiApi._client client0)) client0
           (OtherError "CancelledError")).
  - vm_compute. reflexivity.
  - reflexivity.
Defined.

(** A tool returns a value only when everything went well: the client was
    built, the upstream answered the operation's request with a status in
    200..299, and the value is the decoding of that answer's body.  No
    value is made up when any of these fails. *)
Theorem returned_value_comes_from_upstream (validate : Validation)
    (environ : gmap string string) (upstream : Upstream)
    (json_loads : string -> Outcome Json) (op : Operation) (w : World) (v : Json) :
  fst (tool_call validate environ upstream json_loads op w) = Returns v ->
  exists c w1 r,
    UnifiApi.__init__ validate environ w = (Returns c, w1)
    /\ upstream (UnifiApi._client c) (spec_request op) = Returns r
    /\ is_success r = true
    /\ json_loads (content r) = Returns v.
Proof.
  intros H.
  destruct (UnifiApi.__init__ validate environ w) as [[c|e] w1] eqn:E.
  - rewrite (tool_call_outcome _ _ _ _ _ _ _ _ E) in H. simpl in H.
    exists c, w1.
    destruct (upstream (UnifiApi._client c) (spec_request op)) as [r|e];
      simpl in H; [|discriminate].
    exists r. destruct (is_success r); [|discriminate].
    destruct (json_loads (content r)) as [v'|e'] eqn:J; [|discriminate].
    injection H as <-. repeat split; reflexivity.
  - rewrite (tool_call_not_built _ _ _ _ _ _ _ _ E) in H. discriminate.
Qed.

Lemma returned_value_comes_from_upstream_witness :
  exists c w1 r,
    UnifiApi.__init__ httpx_checks env_key_only world0 = (Returns c, w1)
    /\ upstream_hosts (UnifiApi._client c) (spec_request ListHosts) = Returns r
    /\ is_success r = true
    /\ fake_json_loads (content r) = Returns hosts_json.
Proof.
  apply (returned_value_comes_from_upstream httpx_checks env_key_only upstream_hosts
           fake_json_loads ListHosts world0 hosts_json).
  vm_compute. reflexivity.
Defined.

(** ** More on stripping *)

Lemma rstrip_fixed (chars s : string) :
  (forall d, PyStr.last_char s = Some d -> PyStr.mem d chars = false) ->
  PyStr.rstrip chars s = s.
Proof.
  induction s as [|c s IH]; [reflexivity|]. intros H. simpl.
  destruct s as [|c' s'].
  - simpl. rewrite (H c eq_refl). reflexivity.
  - rewrite IH; [reflexivity|]. intros d Hd. apply H. exact Hd.
Qed.

Lemma lstrip_fixed (chars s : string) :
  (forall d, PyStr.first_char s = Some d -> PyStr.mem d chars = false) ->
  PyStr.lstrip chars s = s.
Proof.
  destruct s as [|c s]; [reflexivity|]. intros H. simpl.
  rewrite (H c eq_refl). reflexivity.
Qed.

Lemma rstrip_idempotent (chars s : string) :
  PyStr.rstrip chars (PyStr.rstrip chars s) = PyStr.rstrip chars s.
Proof. apply rstrip_fixed. intros d. apply last_char_rstrip. Qed.

Lemma strip_idempotent (chars s : string) :
  PyStr.strip chars (PyStr.strip chars s) = PyStr.strip chars s.
Proof.
  unfold PyStr.strip at 1.
  rewrite rstrip_fixed by (intros d; apply last_char_strip).
  apply lstrip_fixed. intros d. apply first_char_strip.
Qed.

Lemma rstrip_all_in (chars s : string) :
  PyStr.all_in chars s = true -> PyStr.rstrip chars s = EmptyString.
Proof.
  induction s as [|c s IH]; [reflexivity|]. simpl.
  intros H. apply andb_true_iff in H as [Hc Hs].
  rewrite (IH Hs), Hc. reflexivity.
Qed.

Lemma strip_all_in (chars s : string) :
  PyStr.all_in chars s = true -> PyStr.strip chars s = EmptyString.
Proof. intros H. unfold PyStr.strip. rewrite (rstrip_all_in _ _ H). reflexivity. Qed.

(** ** Normal forms of the configuration *)

(** The stored base URL and version are normal forms: putting them back
    into the environment as [UNIFI_BASE_URL] and [UNIFI_API_VERSION] and
    constructing again gives the same client. *)
Theorem normalized_values_are_stable (validate : Validation)
    (environ : gmap string string) (w w1 : World)
    (c : UnifiApi.UniFiSiteManagerClient) :
  UnifiApi.__init__ validate environ w = (Returns c, w1) ->
  UnifiApi.__init__ validate
    (<["UNIFI_BASE_URL" := UnifiApi.base_url c]>
       (<["UNIFI_API_VERSION" := UnifiApi.version c]> environ)) w
  = (Returns c, w1).
Proof.
  intros H.
  pose proof (init_accepted _ _ _ _ _ H) as V.
  destruct (init_returns _ _ _ _ _ H) as (k & f & K & Hk & F & -> & ->).
  set (b := UnifiApi.base_url (built_client environ k f w)).
  set (v := UnifiApi.version (built_client environ k f w)).
  set (environ' := <["UNIFI_BASE_URL" := b]> (<["UNIFI_API_VERSION" := v]> environ)).
  assert (K' : environ' !! "UNIFI_API_KEY" = Some k).
  { unfold environ'. rewrite !lookup_insert_ne by discriminate. exact K. }
  assert (T' : timeout_text environ' = timeout_text environ).
  { unfold timeout_text, Os.getenv_or, environ'.
    rewrite !lookup_insert_ne by discriminate. reflexivity. }
  rewrite (init_with_key _ _ _ _ K' Hk), T', F.
  assert (B : built_client environ' k f w = built_client environ k f w).
  { unfold built_client, Os.getenv_or, environ'.
    rewrite lookup_insert_eq.
    rewrite lookup_insert_ne by discriminate. rewrite lookup_insert_eq.
    simpl. unfold b, v, built_client, Os.getenv_or. simpl.
    rewrite rstrip_idempotent, strip_idempotent. reflexivity. }
  rewrite B. cbv zeta. rewrite V. reflexivity.
Qed.

Lemma normalized_values_are_stable_witness :
  UnifiApi.__init__ httpx_checks
    (<["UNIFI_BASE_URL" :=
         UnifiApi.base_url
           (built_client env_slashes "secret" (PyFloat.Dec false 30 0) world0)]>
       (<["UNIFI_API_VERSION" :=
            UnifiApi.version
              (built_client env_slashes "secret" (PyFloat.Dec false 30 0) world0)]>
          env_slashes)) world0
  = (Returns (built_client env_slashes "secret" (PyFloat.Dec false 30 0) world0),
     opened world0
       (UnifiApi._client
          (built_client env_slashes "secret" (PyFloat.Dec false 30 0) world0))).
Proof.
  apply (normalized_values_are_stable httpx_checks env_slashes world0).
  vm_compute. reflexivity.
Defined.

(** A value made of slashes only, the empty value included, is stripped to
    nothing and no default takes its place: such a version leaves the base
    address ending in a slash, and such a base URL leaves it starting with
    one. *)
Theorem slash_only_values_vanish (validate : Validation)
    (environ : gmap string string) (w w1 : World)
    (c : UnifiApi.UniFiSiteManagerClient) :
  UnifiApi.__init__ validate environ w = (Returns c, w1) ->
  (forall s, environ !! "UNIFI_API_VERSION" = Some s ->
             PyStr.all_in "/" s = true ->
             UnifiApi.version c = EmptyString
             /\ base_url (UnifiApi._client c) = UnifiApi.base_url c +:+ "/")
  /\ (forall s, environ !! "UNIFI_BASE_URL" = Some s ->
                PyStr.all_in "/" s = true ->
                UnifiApi.base_url c = EmptyString
                /\ base_url (UnifiApi._client c) = "/" +:+ UnifiApi.version c).
Proof.
  intros H. destruct (init_returns _ _ _ _ _ H) as (k & f & _ & _ & _ & -> & _).
  unfold built_client, Os.getenv_or. simpl. split.
  - intros s E Hs. rewrite E. simpl. rewrite (strip_all_in _ _ Hs).
    split; reflexivity.
  - intros s E Hs. rewrite E. simpl. rewrite (rstrip_all_in _ _ Hs).
    split; reflexivity.
Qed.

Lemma slash_only_values_vanish_witness :
  (UnifiApi.version
     (built_client env_only_slashes "secret" (PyFloat.Dec false 30 0) world0)
   = EmptyString
   /\ base_url (UnifiApi._client
                  (built_client env_only_slashes "secret" (PyFloat.Dec false 30 0)
                     world0))
      = UnifiApi.base_url
          (built_client env_only_slashes "secret" (PyFloat.Dec false 30 0) world0)
        +:+ "/")
  /\ (UnifiApi.base_url
        (built_client env_only_slashes "secret" (PyFloat.Dec false 30 0) world0)
      = EmptyString
      /\ base_url (UnifiApi._client
                     (built_client env_only_slashes "secret" (PyFloat.Dec false 30 0)
                        world0))
         = "/" +:+ UnifiApi.version
                     (built_client env_only_slashes "secret"
                        (PyFloat.Dec false 30 0) world0)).
Proof.
  pose proof (slash_only_values_vanish httpx_checks env_only_slashes world0
                (opened world0
                   (UnifiApi._client
                      (built_client env_only_slashes "secret"
                         (PyFloat.Dec false 30 0) world0)))
                (built_client env_only_slashes "secret" (PyFloat.Dec false 30 0) world0)
                ltac:(vm_compute; reflexivity)) as [Hv Hb].
  split.
  - apply (Hv "/"); vm_compute; reflexivity.
  - apply (Hb "//"); vm_compute; reflexivity.
Defined.

(** ** Blank timeouts *)

Lemma drop_spaces_blank (l : list ascii) :
  forallb PyFloat.is_space l = true -> PyFloat.drop_spaces l = [].
Proof.
  induction l as [|c l IH]; [reflexivity|]. simpl.
  intros H. apply andb_true_iff in H as [Hc Hl]. rewrite Hc. exact (IH Hl).
Qed.

Lemma float_of_blank (s : string) :
  all_spaces s = true -> PyFloat.of_string s = None.
Proof.
  unfold all_spaces, PyFloat.of_string, PyFloat.strip_spaces. intros H.
  rewrite (drop_spaces_blank _ H). reflexivity.
Qed.

(** A timeout variable that is set but blank (empty, or whitespace only)
    does not fall back to 30: [float] refuses it, so with an API key in
    place every tool fails with [ValueError] and nothing is sent. *)
Theorem blank_timeout_is_refused (validate : Validation)
    (environ : gmap string string) (upstream : Upstream)
    (json_loads : string -> Outcome Json) (w : World) (s : string) :
  has_api_key environ ->
  environ !! "UNIFI_TIMEOUT" = Some s ->
  all_spaces s = true ->
  forall op,
    tool_call validate environ upstream json_loads op w = (Raises (ValueError s), w).
Proof.
  intros (k & K & Hk) E Hs op. apply tool_call_not_built.
  assert (T : timeout_text environ = s).
  { unfold timeout_text, Os.getenv_or. rewrite E. reflexivity. }
  rewrite (init_with_key _ _ _ _ K Hk), T, (float_of_blank _ Hs). reflexivity.
Qed.

Lemma blank_timeout_is_refused_witness :
  tool_call httpx_checks env_blank_timeout upstream_hosts fake_json_loads ListHosts world0
  = (Raises (ValueError "  "), world0).
Proof.
  apply (blank_timeout_is_refused httpx_checks env_blank_timeout upstream_hosts fake_json_loads
           world0 "  ").
  - exists "secret". split; [vm_compute; reflexivity | discriminate].
  - vm_compute. reflexivity.
  - reflexivity.
Defined.

(** ** [health] against the client *)

(** [health] does not look at the API key: in an environment without one
    it still answers [status: ok], while each of the other four tools
    fails with [ConfigurationError]. *)
Theorem health_ok_without_api_key (validate : Validation)
    (environ : gmap string string) (upstream : Upstream)
    (json_loads : string -> Outcome Json) (w : World) :
  ~ has_api_key environ ->
  (exists d, Server.health environ w = (Returns d, w) /\ d !! "status" = Some "ok")
  /\ forall op,
       tool_call validate environ upstream json_loads op w = (Raises ConfigurationError, w).
Proof.
  intros Hno. split.
  - eexists. split; reflexivity.
  - intros op. apply tool_call_not_built.
    destruct (api_key_cases environ) as [Hk|Hk]; [contradiction|].
    apply init_without_key, Hk.
Qed.

Lemma health_ok_without_api_key_witness :
  (exists d,
     Server.health env_no_key world0 = (Returns d, world0)
     /\ d !! "status" = Some "ok")
  /\ forall op,
       tool_call httpx_checks env_no_key upstream_hosts fake_json_loads op world0
       = (Raises ConfigurationError, world0).
Proof.
  apply (health_ok_without_api_key httpx_checks env_no_key upstream_hosts fake_json_loads world0).
  intros (k & K & _). vm_compute in K. discriminate.
Defined.

Lemma health_lookups (environ : gmap string string) (w : World) :
  exists d,
    Server.health environ w = (Returns d, w)
    /\ d !! "base_url"
       = Some (Os.getenv_or environ "UNIFI_BASE_URL" "https://api.ui.com")
    /\ d !! "api_version" = Some (Os.getenv_or environ "UNIFI_API_VERSION" "v1").
Proof. eexists. split; [reflexivity | split; reflexivity]. Qed.

(** [health] reports the configured texts as they are, the client uses
    them stripped: the base URL that [health] shows is the client's base
    URL followed by the slashes that were dropped, and stripping what
    [health] shows gives what the client uses. *)
Theorem health_reports_unstripped_values (validate : Validation)
    (environ : gmap string string) (w w1 w2 : World)
    (c : UnifiApi.UniFiSiteManagerClient) :
  UnifiApi.__init__ validate environ w = (Returns c, w1) ->
  exists d,
    Server.health environ w2 = (Returns d, w2)
    /\ PyStr.rstrip "/" <$> d !! "base_url" = Some (UnifiApi.base_url c)
    /\ PyStr.strip "/" <$> d !! "api_version" = Some (UnifiApi.version c)
    /\ (exists t,
          d !! "base_url" = Some (UnifiApi.base_url c +:+ t)
          /\ PyStr.all_in "/" t = true)
    /\ (exists p t,
          d !! "api_version" = Some (p +:+ UnifiApi.version c +:+ t)
          /\ PyStr.all_in "/" p = true /\ PyStr.all_in "/" t = true).
Proof.
  intros H. destruct (init_returns _ _ _ _ _ H) as (k & f & _ & _ & _ & -> & _).
  destruct (health_lookups environ w2) as (d & Hd & Hb & Hv).
  exists d. split; [exact Hd|].
  unfold built_client. cbn [UnifiApi.base_url UnifiApi.version].
  rewrite Hb, Hv.
  split; [reflexivity | split; [reflexivity | split]].
  - destruct (rstrip_split "/"
                (Os.getenv_or environ "UNIFI_BASE_URL" "https://api.ui.com"))
      as (t & Ht & Hs).
    exists t. split; [f_equal; exact Ht | exact Hs].
  - destruct (strip_split "/" (Os.getenv_or environ "UNIFI_API_VERSION" "v1"))
      as (p & t & Ht & Hp & Hs).
    exists p, t. split; [f_equal; exact Ht | split; assumption].
Qed.

Lemma health_reports_unstripped_values_witness :
  exists d,
    Server.health env_slashes world0 = (Returns d, world0)
    /\ PyStr.rstrip "/" <$> d !! "base_url"
       = Some (UnifiApi.base_url
                 (built_client env_slashes "secret" (PyFloat.Dec false 30 0) world0))
    /\ PyStr.strip "/" <$> d !! "api_version"
       = Some (UnifiApi.version
                 (built_client env_slashes "secret" (PyFloat.Dec false 30 0) world0))
    /\ (exists t,
          d !! "base_url"
          = Some (UnifiApi.base_url
                    (built_client env_slashes "secret" (PyFloat.Dec false 30 0) world0)
                  +:+ t)
          /\ PyStr.all_in "/" t = true)
    /\ (exists p t,
          d !! "api_version"
          = Some (p +:+ UnifiApi.version
                          (built_client env_slashes "secret"
                             (PyFloat.Dec false 30 0) world0) +:+ t)
          /\ PyStr.all_in "/" p = true /\ PyStr.all_in "/" t = true).
Proof.
  apply (health_reports_unstripped_values httpx_checks env_slashes world0
           (opened world0
              (UnifiApi._client
                 (built_client env_slashes "secret" (PyFloat.Dec false 30 0) world0)))
           world0).
  vm_compute. reflexivity.
Defined.

(** ** [main] *)

Lemma digit_code (c : ascii) :
  PyFloat.is_digit c = true -> 48 <= PyFloat.code c <= 57.
Proof.
  unfold PyFloat.is_digit. intros H. apply andb_true_iff in H as [H1 H2].
  apply Nat.leb_le in H1. apply Nat.leb_le in H2. lia.
Qed.

Lemma digit_not_underscore (c : ascii) :
  PyFloat.is_digit c = true -> PyFloat.is_underscore c = false.
Proof.
  intros H. apply digit_code in H. unfold PyFloat.is_underscore.
  apply Nat.eqb_neq. lia.
Qed.

Lemma digit_not_space (c : ascii) :
  PyFloat.is_digit c = true -> PyFloat.is_space c = false.
Proof.
  intros H. apply digit_code in H. unfold PyFloat.is_space.
  apply orb_false_iff. split.
  - apply andb_false_iff. right. apply Nat.leb_gt. lia.
  - apply Nat.eqb_neq. lia.
Qed.

Lemma take_sign_digit (c : ascii) (l : list ascii) :
  PyFloat.is_digit c = true -> PyFloat.take_sign (c :: l) = (false, c :: l).
Proof.
  intros H. apply digit_code in H. unfold PyFloat.take_sign.
  replace (PyFloat.code c =? 45) with false by (symmetry; apply Nat.eqb_neq; lia).
  replace (PyFloat.code c =? 43) with false by (symmetry; apply Nat.eqb_neq; lia).
  reflexivity.
Qed.

Lemma scan_digits_only (ds : list ascii) (prev : option ascii) :
  forallb PyFloat.is_digit ds = true ->
  match prev with
  | Some p => PyFloat.is_underscore p = false
  | None => True
  end ->
  PyInt.scan prev ds = Some (ds, []).
Proof.
  revert prev. induction ds as [|c ds IH]; intros prev Hd Hp.
  - simpl. destruct prev as [p|]; [rewrite Hp|]; reflexivity.
  - simpl in Hd. apply andb_true_iff in Hd as [Hc Hd].
    simpl. rewrite (digit_not_underscore _ Hc), Hc.
    rewrite (IH (Some c) Hd (digit_not_underscore _ Hc)). reflexivity.
Qed.

Lemma int_of_digits (max_str_digits : nat) (ds : list ascii) :
  ds <> [] ->
  forallb PyFloat.is_digit ds = true ->
  max_str_digits = 0 \/ length ds <= max_str_digits ->
  PyInt.of_string max_str_digits (string_of_list_ascii ds)
  = Some (Z.of_N (PyFloat.digits_value ds)).
Proof.
  intros Hne Hd Hmax. unfold PyInt.of_string.
  rewrite list_ascii_of_string_of_list_ascii.
  destruct ds as [|d ds]; [congruence|].
  assert (Hd0 : PyFloat.is_digit d = true).
  { simpl in Hd. apply andb_true_iff in Hd as [Hd0 _]. exact Hd0. }
  assert (Hsp : PyFloat.drop_spaces (d :: ds) = d :: ds).
  { simpl. rewrite (digit_not_space _ Hd0). reflexivity. }
  rewrite Hsp, (take_sign_digit _ _ Hd0), (scan_digits_only _ None Hd I).
  assert (Hl : (0 <? max_str_digits) && (max_str_digits <? length (d :: ds)) = false).
  { destruct Hmax as [->|Hmax]; [reflexivity|].
    apply andb_false_iff. right. apply Nat.ltb_ge. exact Hmax. }
  rewrite Hl. reflexivity.
Qed.

(** [main] does not check the range of the port: whatever run of decimal
    digits [MCP_PORT] holds (within the interpreter's limit on literals),
    [mcp.run] is called with its value as the port, be it 0 or far above
    65535. *)
Theorem port_is_not_range_checked
    (max_str_digits : nat) (environ : gmap string string) (ds : list ascii) :
  ds <> [] ->
  forallb PyFloat.is_digit ds = true ->
  max_str_digits = 0 \/ length ds <= max_str_digits ->
  environ !! "MCP_PORT" = Some (string_of_list_ascii ds) ->
  Server.main max_str_digits environ
  = Returns {| Server.transport := "streamable-http";
               Server.host := "0.0.0.0";
               Server.port := Z.of_N (PyFloat.digits_value ds);
               Server.path := default "/mcp" (environ !! "MCP_PATH") |}.
Proof.
  intros Hne Hd Hmax E. unfold Server.main, Os.getenv_or. rewrite E. simpl.
  rewrite (int_of_digits _ _ Hne Hd Hmax). reflexivity.
Qed.

Lemma port_is_not_range_checked_witness :
  Server.main 4300 (<["MCP_PORT" := "99999"]> env_key_only)
  = Returns {| Server.transport := "streamable-http";
               Server.host := "0.0.0.0";
               Server.port := 99999;
               Server.path := "/mcp" |}.
Proof.
  etransitivity.
  - apply (port_is_not_range_checked 4300 (<["MCP_PORT" := "99999"]> env_key_only)
             ["9"; "9"; "9"; "9"; "9"]%char).
    + discriminate.
    + reflexivity.
    + right. simpl. lia.
    + vm_compute. reflexivity.
  - vm_compute. reflexivity.
Defined.

(** ** Authentication of requests *)

(** With an API key and a timeout that [float] accepts, every GET that a
    run adds to the log is the request of one of the invoked operations and
    goes through a client opened in that run, whose headers are [X-API-KEY]
    with the configured key and [Accept: application/json]. *)
Theorem every_request_carries_the_key (validate : Validation)
    (environ : gmap string string) (upstream : Upstream)
    (json_loads : string -> Outcome Json) (ops : list Operation) (w : World)
    (k : string) (f : PyFloat.t) :
  environ !! "UNIFI_API_KEY" = Some k -> k <> EmptyString ->
  PyFloat.of_string (timeout_text environ) = Some f ->
  forall i r,
    In (Get i r) (log (invoke_all validate environ upstream json_loads ops w)) ->
    In (Get i r) (log w)
    \/ exists c op,
         In (Open c) (log (invoke_all validate environ upstream json_loads ops w))
         /\ ident c = i
         /\ headers c = [("X-API-KEY", k); ("Accept", "application/json")]
         /\ In op ops /\ r = spec_request op.
Proof.
  intros K Hk F i r.
  destruct (invoke_all_sessions validate environ upstream json_loads ops w)
    as (crs & L & _ & _ & _ & O).
  rewrite L. intros H. apply in_app_or in H as [H|H]; [left; exact H|].
  right. apply in_concat in H as (evs & Hevs & Hin).
  apply in_map_iff in Hevs as (cr & <- & Hcr).
  rewrite Forall_forall in O.
  destruct (O cr ltac:(apply list_elem_of_In; exact Hcr))
    as [(op & Hop & Hr) (c & w0 & w1 & Hinit & Hc)].
  simpl in Hin. destruct Hin as [Hin|[Hin|[Hin|[]]]]; try discriminate.
  injection Hin as <- <-.
  exists (fst cr), op.
  split; [|split; [|split; [|split]]].
  - apply in_or_app. right. apply in_concat. exists (session cr).
    split; [apply in_map; exact Hcr | left; reflexivity].
  - reflexivity.
  - destruct (init_returns _ _ _ _ _ Hinit) as (k' & f' & K' & _ & _ & -> & _).
    rewrite Hc. simpl. rewrite K in K'. injection K' as <-. reflexivity.
  - exact Hop.
  - exact Hr.
Qed.

Lemma every_request_carries_the_key_witness :
  In (Get 1 (spec_request (ListDevices "abc"))) (log world0)
  \/ exists c op,
       In (Open c)
          (log (invoke_all httpx_checks env_key_only upstream_404 fake_json_loads
                  [ListHosts; ListDevices "abc"] world0))
       /\ ident c = 1
       /\ headers c = [("X-API-KEY", "secret"); ("Accept", "application/json")]
       /\ In op [ListHosts; ListDevices "abc"]
       /\ spec_request (ListDevices "abc") = spec_request op.
Proof.
  apply (every_request_carries_the_key httpx_checks env_key_only upstream_404 fake_json_loads
           [ListHosts; ListDevices "abc"] world0 "secret" (PyFloat.Dec false 30 0)).
  - vm_compute. reflexivity.
  - discriminate.
  - vm_compute. reflexivity.
  - vm_compute. do 4 right. left. reflexivity.
Defined.
